(** * Athena ingestion module: a shallow embedding of the backend in Rocq.

    Sources: [src/backend/translation.py], [src/backend/main.py] and
    [src/backend/metadata_extraction.py].  External collaborators (the HTTP
    transport, the ClamAV process, the text extractors, the OpenAI and YAKE
    calls) are oracles passed as arguments; everything the repository itself
    decides is written out as the code has it. *)

From Stdlib Require Import Lia ZArith Ascii String.
From stdpp Require Import base gmap strings list pretty.

Set Warnings "-register-all".
Open Scope string_scope.
Open Scope list_scope.

(* ------------------------------------------------------------------------ *)
(** ** Python helpers shared by the modules *)

(** [range(start, stop, step)] for a positive [step]: Python gives it
    [max(0, (stop - start + step - 1) // step)] elements. *)
Definition py_range_len (start stop step : nat) : nat :=
  (stop - start + step - 1) `div` step.

Definition py_range (start stop step : nat) : list nat :=
  map (fun k => start + k * step) (seq 0 (py_range_len start stop step)).

(** [s[i:j]] for [0 <= i <= j]: out-of-range ends are clamped. *)
Definition py_slice {A} (s : list A) (i j : nat) : list A :=
  take (j - i) (drop i s).

(** [s.strip() == ""]: every character is Python whitespace. A character
    is a code point below 256 here; [str.isspace] holds on 9-13, 28-32,
    133 ([\x85]) and 160 ([\xa0]). *)
Definition is_py_space (c : ascii) : bool :=
  let n := nat_of_ascii c in
  (Nat.leb 9 n && Nat.leb n 13) || (Nat.leb 28 n && Nat.leb n 32) ||
  Nat.eqb n 133 || Nat.eqb n 160.

Definition py_str_blank (s : string) : bool :=
  forallb is_py_space (list_ascii_of_string s).

Definition ascii_lower (c : ascii) : ascii :=
  let n := nat_of_ascii c in
  if Nat.leb 65 n && Nat.leb n 90 then ascii_of_nat (n + 32) else c.

(** [s.lower()] *)
Definition py_lower (s : string) : string :=
  string_of_list_ascii (map ascii_lower (list_ascii_of_string s)).

Fixpoint split_first (c : ascii) (l : list ascii) : option (list ascii * list ascii) :=
  match l with
  | [] => None
  | x :: xs =>
      if Ascii.eqb x c then Some ([], xs)
      else match split_first c xs with
           | Some (a, b) => Some (x :: a, b)
           | None => None
           end
  end.

(** Split at the last occurrence of [c] ([str.rfind]). *)
Definition split_last (c : ascii) (l : list ascii) : option (list ascii * list ascii) :=
  match split_first c (rev l) with
  | Some (a, b) => Some (rev b, rev a)
  | None => None
  end.

(** [posixpath.basename]: the part after the last ['/']. *)
Definition basename (p : string) : string :=
  match split_last "/"%char (list_ascii_of_string p) with
  | Some (_, after) => string_of_list_ascii after
  | None => p
  end.

(** [posixpath.splitext]: split at the last ['.'] of the last component,
    unless that component has only dots before it. *)
Definition splitext (p : string) : string * string :=
  let l := list_ascii_of_string p in
  let '(dir, bn) := match split_last "/"%char l with
                    | Some (before, after) => (before ++ ["/"%char], after)
                    | None => ([], l)
                    end in
  match split_last "."%char bn with
  | Some (root, ext) =>
      if existsb (fun c => negb (Ascii.eqb c "."%char)) root
      then (string_of_list_ascii (dir ++ root), string_of_list_ascii ("."%char :: ext))
      else (p, "")
  | None => (p, "")
  end.

(** [posixpath.join(a, b)] for a directory [a] not ending in ['/']. *)
Definition os_path_join (a b : string) : string :=
  match b with
  | String "/"%char _ => b
  | _ => a +:+ "/" +:+ b
  end.

(** Python values stored in the metadata dictionaries. *)
Inductive PyVal :=
  | PNone
  | PStr (s : string)
  | PList (l : list PyVal).

Abbreviation PyDict := (gmap string PyVal).

(** Truthiness: [None], [""] and [[]] are false. *)
Definition py_truthy (v : PyVal) : bool :=
  match v with
  | PNone => false
  | PStr s => negb (String.eqb s "")
  | PList l => match l with [] => false | _ => true end
  end.

(** [bool(d.get(k))] *)
Definition py_get_truthy (d : PyDict) (k : string) : bool :=
  match d !! k with Some v => py_truthy v | None => false end.

Definition py_dict_truthy (d : PyDict) : bool := negb (bool_decide (d = ∅)).

(* ------------------------------------------------------------------------ *)
(** ** translation.py : [translate_text] *)

Module Translation.

(** One reply of [client.post(...)] followed by [raise_for_status()] and
    the JSON access [translation_result[0]['translations'][0]['text']]. *)
Inductive Outcome {Char : Type} :=
  | Success (translated : list Char)   (* 2xx, well-formed body *)
  | StatusError (status_code : nat)    (* raise_for_status raised *)
  | OtherError (msg : string).         (* any other exception *)
Arguments Outcome : clear implicits.

(** Observable effects of the client: requests issued and sleeps. *)
Inductive Event {Char : Type} :=
  | Post (chunk : list Char)
  | Sleep (seconds : nat).
Arguments Event : clear implicits.

Inductive Exn :=
  | ValueError (msg : string)
  | HTTPStatusError (status_code : nat)
  | Raised (msg : string).

Inductive Result (A : Type) :=
  | Ok (a : A)
  | Exc (e : Exn).
Arguments Ok {A} a.
Arguments Exc {A} e.

Record St {Char : Type} := mkSt { posts : nat; log : list (Event Char) }.
Arguments St : clear implicits.
Arguments mkSt {Char} posts log.

Definition CHUNK_SIZE : nat := 4800.
Definition MAX_RETRIES : nat := 3.

Section Client.
Context {Char : Type}.
(** The stub transport: the reply to the [n]-th request overall, for a
    given request body. *)
Variable transport : nat -> list Char -> Outcome Char.

Definition text_chunks (text : list Char) : list (list Char) :=
  map (fun i => py_slice text i (i + CHUNK_SIZE))
      (py_range 0 (length text) CHUNK_SIZE).

Definition post (st : St Char) (chunk : list Char) : St Char :=
  mkSt (S (posts st)) (log st ++ [Post chunk]).

Definition sleep (st : St Char) (secs : nat) : St Char :=
  mkSt (posts st) (log st ++ [Sleep secs]).

(** [for attempt in range(MAX_RETRIES): try ... except HTTPStatusError].
    A success appends the translation, sleeps 1s and breaks; a 429 before
    the last attempt sleeps [2 ** (attempt + 1)] and continues; any other
    error is re-raised. *)
Fixpoint retry_loop (attempts : list nat) (chunk : list Char)
    (translated_chunks : list (list Char)) (st : St Char)
    : Result (list (list Char)) * St Char :=
  match attempts with
  | [] => (Ok translated_chunks, st)
  | attempt :: rest =>
      let st1 := post st chunk in
      match transport (posts st) chunk with
      | Success t => (Ok (translated_chunks ++ [t]), sleep st1 1)
      | StatusError code =>
          if Nat.eqb code 429 && Nat.ltb attempt (MAX_RETRIES - 1)
          then retry_loop rest chunk translated_chunks
                 (sleep st1 (2 ^ (attempt + 1)))
          else (Exc (HTTPStatusError code), st1)
      | OtherError m => (Exc (Raised m), st1)
      end
  end.

Fixpoint chunk_loop (chunks : list (list Char))
    (translated_chunks : list (list Char)) (st : St Char)
    : Result (list (list Char)) * St Char :=
  match chunks with
  | [] => (Ok translated_chunks, st)
  | chunk :: rest =>
      match retry_loop (py_range 0 MAX_RETRIES 1) chunk translated_chunks st with
      | (Ok tc, st') => chunk_loop rest tc st'
      | (Exc e, st') => (Exc e, st')
      end
  end.

(** [TRANSLATOR_API_KEY] is read at import time; [None] when unset. *)
Definition translate_text (TRANSLATOR_API_KEY : option string)
    (text : list Char) (st : St Char) : Result (list Char) * St Char :=
  match TRANSLATOR_API_KEY with
  | None | Some "" =>
      (Exc (ValueError "TRANSLATOR_API_KEY environment variable not set."), st)
  | Some _ =>
      match chunk_loop (text_chunks text) [] st with
      | (Ok tc, st') => (Ok (concat tc), st')
      | (Exc e, st') => (Exc e, st')
      end
  end.

End Client.

End Translation.

(* ------------------------------------------------------------------------ *)
(** ** main.py : the per-file pipeline and the upload endpoint *)

Module Backend.

Definition UPLOADS_DIR : string := "uploads".
Definition MAX_FILE_SIZE : N := 50 * 1024 * 1024.
Definition ALLOWED_EXTENSIONS : list string :=
  [".pdf"; ".docx"; ".txt"; ".tex"; ".html"; ".xml"].

(** Python exceptions raised along the pipeline. *)
Inductive Exn :=
  | HTTPException (status_code : nat) (detail : string)
  | FileNotFoundError (msg : string)
  | Exception (msg : string).

(** [str(e)]; starlette's [HTTPException] prints as ["code: detail"]. *)
Definition exn_str (e : Exn) : string :=
  match e with
  | HTTPException c d => pretty c +:+ ": " +:+ d
  | FileNotFoundError m => m
  | Exception m => m
  end.

(** What the uploads directory holds under a path. *)
Inductive Content :=
  | OriginalBytes (size : N)
  | TextFile (text : string)
  | JsonFile (d : PyDict).

Record StatusEvent := mkEvent
  { ev_filename : string; ev_status : string; ev_detail : option string }.

(** The dictionaries [{"filename", "status", "error"?}] of one file. *)
Record FileResult := mkResult
  { r_filename : string; r_status : string; r_error : option string }.

Record UploadResponse := mkResponse
  { message : string; successful : nat; failed : nat; details : list FileResult }.

(** Observable actions, in the order they happen: a put on the global
    [status_queue], or the HTTP response of [/api/upload/]. *)
Inductive Obs :=
  | Published (ev : StatusEvent)
  | Responded (resp : UploadResponse).

Record State := mkState { store : gmap string Content; trace : list Obs }.

Inductive Result (A : Type) :=
  | Ok (a : A)
  | Exc (e : Exn).
Arguments Ok {A} a.
Arguments Exc {A} e.

(** Coroutines of the module: state passing with Python exceptions. *)
Definition M (A : Type) : Type := State -> Result A * State.

Definition ret {A} (a : A) : M A := fun s => (Ok a, s).

Global Instance M_bind : MBind M := fun A B k m s =>
  match m s with
  | (Ok a, s') => k a s'
  | (Exc e, s') => (Exc e, s')
  end.

Definition raise {A} (e : Exn) : M A := fun s => (Exc e, s).

(** [try: m except e: h(e)] *)
Definition try_except {A} (m : M A) (h : Exn -> M A) : M A := fun s =>
  match m s with
  | (Exc e, s') => h e s'
  | r => r
  end.

(** The value or exception returned by an external callee. *)
Definition lift {A} (r : Result A) : M A := fun s => (r, s).

(** [await status_queue.put(ev)] *)
Definition status_put (ev : StatusEvent) : M unit := fun s =>
  (Ok tt, mkState (store s) (trace s ++ [Published ev])).

Definition respond (resp : UploadResponse) : M unit := fun s =>
  (Ok tt, mkState (store s) (trace s ++ [Responded resp])).

Definition os_path_exists (p : string) : M bool := fun s =>
  (Ok (match store s !! p with Some _ => true | None => false end), s).

(** [os.remove] raises [FileNotFoundError] on a missing path. *)
Definition os_remove (p : string) : M unit := fun s =>
  match store s !! p with
  | Some _ => (Ok tt, mkState (delete p (store s)) (trace s))
  | None => (Exc (FileNotFoundError
                    ("[Errno 2] No such file or directory: '" +:+ p +:+ "'")), s)
  end.

(** [if os.path.exists(p): os.remove(p)] *)
Definition remove_if_exists (p : string) : M unit := fun s =>
  match store s !! p with
  | Some _ => (Ok tt, mkState (delete p (store s)) (trace s))
  | None => (Ok tt, s)
  end.

(** [with open(p, "w") as f: f.write(c)]. [open] raises for some paths: a
    directory of [p] that does not exist, a file name longer than the file
    system allows, no permission. [open_error p] is that exception; the
    file is left as it was. Otherwise the file is (over)written. *)
Definition write_file (open_error : string -> option Exn) (p : string) (c : Content)
    : M unit := fun s =>
  match open_error p with
  | Some e => (Exc e, s)
  | None => (Ok tt, mkState (<[p := c]> (store s)) (trace s))
  end.

(** The path components of [p], split at ['/']. *)
Fixpoint split_slash (l : list ascii) : list (list ascii) :=
  match l with
  | [] => [[]]
  | c :: rest =>
      if Ascii.eqb c "/"%char then [] :: split_slash rest
      else match split_slash rest with
           | comp :: comps => (c :: comp) :: comps
           | [] => [[c]]
           end
  end.

(** One cause of [open_error] on Linux: a path component longer than
    [NAME_MAX] = 255 bytes gives [OSError: [Errno 36] File name too long]. *)
Definition name_too_long (p : string) : option Exn :=
  if existsb (fun comp => Nat.ltb 255 (length comp)) (split_slash (list_ascii_of_string p))
  then Some (Exception ("[Errno 36] File name too long: '" +:+ p +:+ "'"))
  else None.

Definition content_size (c : Content) : N :=
  match c with
  | OriginalBytes n => n
  | TextFile t => N.of_nat (String.length t)
  | JsonFile _ => 0
  end.

Definition os_path_getsize (p : string) : M N := fun s =>
  match store s !! p with
  | Some c => (Ok (content_size c), s)
  | None => (Exc (FileNotFoundError
                    ("[Errno 2] No such file or directory: '" +:+ p +:+ "'")), s)
  end.

(** Outcome of [subprocess.run(["clamscan", "--no-summary", path])]. *)
Inductive ScanRun :=
  | Completed (returncode : Z) (stderr : string)
  | BinaryNotFound                 (* FileNotFoundError from subprocess *)
  | RunFailed (msg : string).      (* any other exception *)

Inductive Extractor :=
  | extract_text_from_pdf
  | extract_text_from_docx
  | extract_text_from_txt
  | extract_text_from_html
  | extract_text_from_xml.

Definition text_extractors : list (string * Extractor) :=
  [(".pdf", extract_text_from_pdf); (".docx", extract_text_from_docx);
   (".txt", extract_text_from_txt); (".html", extract_text_from_html);
   (".xml", extract_text_from_xml); (".tex", extract_text_from_txt)].

(** [dict.get(k)] on a dictionary literal. *)
Definition dict_get {V} (d : list (string * V)) (k : string) : option V :=
  match find (fun kv => String.eqb kv.1 k) d with
  | Some kv => Some kv.2
  | None => None
  end.

Definition minimal_metadata (base_filename : string) : PyDict :=
  <["title" := PStr base_filename]>
  (<["authors" := PList [PStr "No Authors"]]>
  (<["abstract" := PStr "No abstract available"]>
  (<["keywords" := PList [PStr "general"]]> ∅))).

Definition base_of (file_path : string) : string := (splitext (basename file_path)).1.

Definition metadata_path_of (file_path : string) : string :=
  os_path_join UPLOADS_DIR (base_of file_path +:+ "_metadata.json").

Definition translated_path_of (file_path : string) : string :=
  os_path_join UPLOADS_DIR (base_of file_path +:+ "_translated.txt").

Record UploadFile := mkUpload { up_filename : string; up_size : N }.

Section Pipeline.
(** The external collaborators. *)
Variable clamscan : string -> ScanRun.
Variable run_extractor : Extractor -> string -> Result string.
Variable translate_text : string -> Result string.
Variable process_file_metadata : string -> string -> string -> Result PyDict.
Variable open_error : string -> option Exn.

Definition scan_file (file_path : string) : M unit :=
  try_except
    (match clamscan file_path with
     | BinaryNotFound =>
         raise (FileNotFoundError "[Errno 2] No such file or directory: 'clamscan'")
     | RunFailed m => raise (Exception m)
     | Completed returncode _ =>
         if Z.eqb returncode 1 then
           os_remove file_path ;;
           raise (HTTPException 400 ("Malware detected in file: " +:+
                    basename file_path +:+ ". Upload rejected."))
         else if negb (Z.eqb returncode 0) then
           os_remove file_path ;;
           raise (HTTPException 500
             "An error occurred during malware scanning. The file has been removed.")
         else ret tt
     end)
    (fun e =>
       match e with
       | FileNotFoundError _ => ret tt
       | _ =>
           remove_if_exists file_path ;;
           raise (HTTPException 500
             "An unexpected server error occurred during file security processing.")
       end).

Definition process_and_save_metadata (file_path file_ext text_content filename : string)
    : M PyDict :=
  let base_filename := base_of file_path in
  let metadata_path := metadata_path_of file_path in
  let minimal := minimal_metadata base_filename in
  try_except
    (status_put (mkEvent filename "Extracting Metadata..." None) ;;
     metadata ← lift (process_file_metadata file_path file_ext text_content);
     let metadata := if py_dict_truthy metadata then metadata else minimal in
     write_file open_error metadata_path (JsonFile metadata) ;;
     ret metadata)
    (fun e =>
       let error_msg := "Error processing metadata for " +:+ basename file_path
                        +:+ ": " +:+ exn_str e in
       let minimal := <["error" := PStr error_msg]> minimal in
       (* [except Exception as save_error]: printed *)
       try_except (write_file open_error metadata_path (JsonFile minimal))
         (fun _ => ret tt) ;;
       ret minimal).

Definition process_and_translate_file (file_path file_ext filename : string) : M unit :=
  try_except
    (match dict_get text_extractors file_ext with
     | None => ret tt
     | Some extractor =>
         status_put (mkEvent filename "Processing..." None) ;;
         original_text ← lift (run_extractor extractor file_path);
         if py_str_blank original_text then ret tt else
         status_put (mkEvent filename "Translating..." None) ;;
         translated_text ← lift (translate_text original_text);
         process_and_save_metadata file_path file_ext translated_text filename ;;
         if negb (String.eqb translated_text "") then
           write_file open_error (translated_path_of file_path) (TextFile translated_text)
         else ret tt
     end)
    (fun _ => ret tt).  (* printed, not re-raised *)

Definition process_file_in_background (filename file_ext file_path : string)
    : M FileResult :=
  try_except
    (status_put (mkEvent filename "Scanning for malware..." None) ;;
     scan_file file_path ;;
     process_and_translate_file file_path file_ext filename ;;
     status_put (mkEvent filename "Complete" (Some "Processing finished successfully.")) ;;
     ret (mkResult filename "success" None))
    (fun e =>
       let error_msg := match e with
                        | HTTPException _ d => d
                        | _ => "An unexpected error occurred: " +:+ exn_str e
                        end in
       remove_if_exists file_path ;;
       status_put (mkEvent filename "Error" (Some error_msg)) ;;
       ret (mkResult filename "error" (Some error_msg))).

Definition process_single_file (file : UploadFile) : M FileResult :=
  let filename := up_filename file in
  let file_ext := py_lower (splitext filename).2 in
  let file_path := os_path_join UPLOADS_DIR filename in
  try_except
    ((if existsb (String.eqb file_ext) ALLOWED_EXTENSIONS then ret tt
      else raise (HTTPException 400 ("File type not allowed for " +:+ filename))) ;;
     write_file open_error file_path (OriginalBytes (up_size file)) ;;
     file_size ← os_path_getsize file_path;
     (if N.ltb MAX_FILE_SIZE file_size then
        remove_if_exists file_path ;;
        raise (HTTPException 413 ("File size exceeds limit for " +:+ filename))
      else ret tt) ;;
     process_file_in_background filename file_ext file_path)
    (fun e =>
       remove_if_exists file_path ;;
       let error_msg := match e with HTTPException _ d => d | _ => exn_str e end in
       ret (mkResult filename "error"
              (Some ("Failed to process file " +:+ filename +:+ ": " +:+ error_msg)))).

(** [await asyncio.gather] over the tasks: every task is awaited; the tasks are run
    here in list order, one of the schedules of the event loop. *)
Fixpoint gather (files : list UploadFile) : M (list FileResult) :=
  match files with
  | [] => ret []
  | f :: fs => r ← process_single_file f; rs ← gather fs; ret (r :: rs)
  end.

(** [/api/upload/]: the response is sent when the handler returns. *)
Definition upload_files (files : list UploadFile) : M UploadResponse :=
  match files with
  | [] => raise (HTTPException 400 "No files provided")
  | _ =>
      results ← gather files;
      let success_count :=
        length (filter (fun r => String.eqb (r_status r) "success") results) in
      let resp := mkResponse
        ("Started processing " +:+ pretty (length files) +:+ " file(s)")
        success_count (length files - success_count) results in
      respond resp ;;
      ret resp
  end.

End Pipeline.

End Backend.

(* ------------------------------------------------------------------------ *)
(** ** metadata_extraction.py : [process_file_metadata] *)

Module MetadataExtraction.
Import Backend.

(** [reader.metadata] of a PDF; each attribute is a string or [None]. *)
Record PdfInfo := mkPdfInfo
  { info_title : option string; info_author : option string;
    info_subject : option string; info_creator : option string;
    info_producer : option string; info_creation_date : option string;
    info_modification_date : option string }.

Definition opt_val (o : option string) : PyVal :=
  match o with Some s => PStr s | None => PNone end.

(** [extract_metadata_from_pdf]: [None] stands for a falsy [reader.metadata]
    or an exception while reading, both of which give [{}]. *)
Definition extract_metadata_from_pdf (info : option PdfInfo) : PyDict :=
  match info with
  | None => ∅
  | Some i =>
      <["title" := opt_val (info_title i)]>
      (<["author" := opt_val (info_author i)]>
      (<["subject" := opt_val (info_subject i)]>
      (<["creator" := opt_val (info_creator i)]>
      (<["producer" := opt_val (info_producer i)]>
      (<["creation_date" := opt_val (info_creation_date i)]>
      (<["modification_date" := opt_val (info_modification_date i)]> ∅))))))
  end.

Fixpoint str_join (sep : string) (l : list string) : string :=
  match l with
  | [] => ""
  | [x] => x
  | x :: xs => x +:+ sep +:+ str_join sep xs
  end.

Fixpoint py_repr (v : PyVal) : string :=
  match v with
  | PNone => "None"
  | PStr s => "'" +:+ s +:+ "'"
  | PList l => "[" +:+ str_join ", " (map py_repr l) +:+ "]"
  end.

(** [str(v)] *)
Definition py_str (v : PyVal) : string :=
  match v with PStr s => s | _ => py_repr v end.

(** [translate_text(s, target_lang=...)]: [translate_text] takes no
    [target_lang] parameter, so every such call raises a [TypeError]. *)
Definition translate_text_kw (s : string) : Result string :=
  Exc (Exception "translate_text() got an unexpected keyword argument 'target_lang'").

Definition translate_field (key : string) (value : PyVal) : PyVal :=
  if existsb (String.eqb key) ["title"; "subject"; "abstract"] then
    match translate_text_kw (py_str value) with Ok t => PStr t | Exc _ => value end
  else if String.eqb key "author" then
    match value with
    | PStr s => match translate_text_kw s with Ok t => PStr t | Exc _ => value end
    | _ => value
    end
  else if String.eqb key "keywords" then
    match value with
    | PList kws =>
        PList (map (fun kw => match translate_text_kw (py_str kw) with
                              | Ok t => PStr t
                              | Exc _ => PStr (py_str kw)
                              end) kws)
    | _ => value
    end
  else value.

(** [translate_metadata]: falsy values are dropped. *)
Definition translate_metadata (metadata : PyDict) : PyDict :=
  map_imap (fun k v => if py_truthy v then Some (translate_field k v) else None)
    metadata.

(** Steps 1-5 of [process_file_metadata]. The callees that reach OpenAI,
    Sumy and YAKE are oracles: [generate_abstract] (which catches its own
    errors), [generate_keywords] (likewise, a list of strings) and the
    YAKE fallback of step 4. *)
Definition derive_fields (file_ext text_content : string) (pdf_info : option PdfInfo)
    (generate_abstract : Result string) (generate_keywords : list string)
    (yake_keywords : Result (list string)) : PyDict :=
  (* 1. *)
  let fm :=
    if String.eqb (py_lower file_ext) ".pdf" then
      let m := extract_metadata_from_pdf pdf_info in
      if py_dict_truthy m then translate_metadata m else m
    else ∅ in
  (* 2. *)
  let fm :=
    if negb (py_get_truthy fm "author") && negb (py_get_truthy fm "authors")
    then <["authors" := PList [PStr "No Authors"]]> fm else fm in
  (* 3. *)
  let fm :=
    if negb (py_get_truthy fm "abstract") then
      <["abstract" := match generate_abstract with
                      | Ok a => PStr a
                      | Exc _ => PStr "Abstract could not be generated."
                      end]> fm
    else fm in
  (* 4. *)
  let fm :=
    if negb (py_get_truthy fm "keywords") then
      let keywords :=
        match generate_keywords with
        | [] => if negb (py_str_blank text_content)
                then match yake_keywords with
                     | Ok kws => Ok (take 10 kws)
                     | Exc e => Exc e
                     end
                else Ok []
        | kws => Ok kws
        end in
      match keywords with
      | Ok ((_ :: _) as kws) => <["keywords" := PList (map PStr kws)]> fm
      | Ok [] => <["keywords" := PList [PStr "general"]]> fm
      | Exc _ => <["keywords" := PList [PStr "general"]]> fm
      end
    else fm in
  (* 5. *)
  translate_metadata fm.

(** Step 6: drop [None] and [""]; unwrap one-element lists except for
    [authors] and [keywords]. *)
Definition clean_value (k : string) (v : PyVal) : option PyVal :=
  match v with
  | PNone => None
  | PStr "" => None
  | PList [x] =>
      if existsb (String.eqb k) ["authors"; "keywords"] then Some v else Some x
  | _ => Some v
  end.

(** Step 7 for a field that must be a list. *)
Definition ensure_list (k : string) (default : PyVal) (m : PyDict) : PyDict :=
  match m !! k with
  | Some v =>
      if negb (py_truthy v) then <[k := default]> m
      else match v with
           | PStr s => <[k := PList [PStr s]]> m
           | _ => m
           end
  | None => <[k := default]> m
  end.

Definition finalize (file_path : string) (final_metadata : PyDict) : PyDict :=
  let cleaned := map_imap clean_value final_metadata in
  let cleaned :=
    if negb (py_get_truthy cleaned "title")
    then <["title" := PStr (base_of file_path)]> cleaned else cleaned in
  let cleaned := ensure_list "authors" (PList [PStr "No Authors"]) cleaned in
  ensure_list "keywords" (PList [PStr "general"]) cleaned.

Definition process_file_metadata (file_path file_ext text_content : string)
    (pdf_info : option PdfInfo) (generate_abstract : Result string)
    (generate_keywords : list string) (yake_keywords : Result (list string)) : PyDict :=
  finalize file_path
    (derive_fields file_ext text_content pdf_info generate_abstract
       generate_keywords yake_keywords).

End MetadataExtraction.

(* ------------------------------------------------------------------------ *)
(** ** main.py : [status_queue] and [status_event_generator] *)

Module StatusHub.

(** [status_queue = asyncio.Queue()] is one FIFO queue shared by every job
    and every [/api/status] client. A schedule is a list of actions. *)
Inductive Action {Event : Type} :=
  | Connect (sub : nat)      (* a client opens /api/status *)
  | Disconnect (sub : nat)   (* request.is_disconnected() becomes true *)
  | Put (ev : Event)         (* await status_queue.put(ev) *)
  | Poll (sub : nat).        (* one loop iteration: wait_for(get(), 1.0) resolves *)
Arguments Action : clear implicits.

(** A frame sent to a client: a message, or the keep-alive comment sent
    when the [get] timed out. *)
Inductive Frame {Event : Type} :=
  | Data (ev : Event)
  | KeepAlive.
Arguments Frame : clear implicits.

Record Hub {Event : Type} := mkHub
  { queue : list Event; connected : list nat; sent : list (nat * Frame Event) }.
Arguments Hub : clear implicits.
Arguments mkHub {Event} queue connected sent.

Section Steps.
Context {Event : Type}.

Definition is_connected (h : Hub Event) (sub : nat) : bool :=
  existsb (Nat.eqb sub) (connected h).

(** A [Poll] by a connected client takes the head of the queue
    ([status_queue.get()]), or times out on an empty queue. A disconnected
    client leaves its loop and takes nothing. *)
Definition step (h : Hub Event) (a : Action Event) : Hub Event :=
  match a with
  | Connect sub => mkHub (queue h) (sub :: connected h) (sent h)
  | Disconnect sub =>
      mkHub (queue h) (filter (fun s => negb (Nat.eqb s sub)) (connected h)) (sent h)
  | Put ev => mkHub (queue h ++ [ev]) (connected h) (sent h)
  | Poll sub =>
      if is_connected h sub then
        match queue h with
        | ev :: rest => mkHub rest (connected h) (sent h ++ [(sub, Data ev)])
        | [] => mkHub [] (connected h) (sent h ++ [(sub, KeepAlive)])
        end
      else h
  end.

Definition run (h : Hub Event) (acts : list (Action Event)) : Hub Event :=
  fold_left step acts h.

Definition empty_hub : Hub Event := mkHub [] [] [].

(** The events put on the queue, in order. *)
Definition published (acts : list (Action Event)) : list Event :=
  flat_map (fun a => match a with Put ev => [ev] | _ => [] end) acts.

(** The events some client received, in the order they were sent. *)
Definition received (h : Hub Event) : list Event :=
  flat_map (fun sf => match sf.2 with Data ev => [ev] | KeepAlive => [] end) (sent h).

(** The events one client received. *)
Definition received_by (h : Hub Event) (sub : nat) : list Event :=
  flat_map (fun sf => match sf.2 with
                      | Data ev => if Nat.eqb sf.1 sub then [ev] else []
                      | KeepAlive => []
                      end) (sent h).

End Steps.

End StatusHub.

(* ------------------------------------------------------------------------ *)
(** ** main.py : [get_uploaded_files] (the [/api/files/] listing) *)

Module Listing.
Import Backend.

(** [s.startswith('.')] *)
Definition py_startswith_dot (s : string) : bool :=
  match s with String "."%char _ => true | _ => false end.

(** [s.endswith(suffix)] *)
Definition py_endswith (s suffix : string) : bool :=
  let l := list_ascii_of_string s in
  let k := list_ascii_of_string suffix in
  Nat.leb (length k) (length l) && bool_decide (drop (length l - length k) l = k).

(** [s[:-len(suffix)]] for a non-empty [suffix] *)
Definition drop_suffix (s suffix : string) : string :=
  let l := list_ascii_of_string s in
  string_of_list_ascii (take (length l - String.length suffix) l).

(** The value of [file_map[base_name]]: the keys set so far. *)
Record FileInfo := mkInfo
  { fi_filename : option string; fi_translated : option string;
    fi_metadata : option PyDict }.

Definition empty_info : FileInfo := mkInfo None None None.

Definition set_filename (v : string) (fi : FileInfo) : FileInfo :=
  mkInfo (Some v) (fi_translated fi) (fi_metadata fi).
Definition set_translated (v : string) (fi : FileInfo) : FileInfo :=
  mkInfo (fi_filename fi) (Some v) (fi_metadata fi).
Definition set_metadata (v : PyDict) (fi : FileInfo) : FileInfo :=
  mkInfo (fi_filename fi) (fi_translated fi) (Some v).

(** [file_map.setdefault(k, {})[field] = v] on an insertion-ordered dict:
    an existing key is updated in place, a new key goes last. *)
Fixpoint setdefault_update (k : string) (f : FileInfo -> FileInfo)
    (file_map : list (string * FileInfo)) : list (string * FileInfo) :=
  match file_map with
  | [] => [(k, f empty_info)]
  | (k', fi) :: rest =>
      if String.eqb k' k then (k', f fi) :: rest
      else (k', fi) :: setdefault_update k f rest
  end.

(** An entry of the [files] list of the response. *)
Record FileEntry := mkEntry
  { filename : string; translated_filename : option string;
    metadata : option PyDict }.

Record FilesResponse := mkFiles { files : list FileEntry; error : option string }.

Section Files.
(** [open(os.path.join(UPLOADS_DIR, name))] followed by [json.load]: the
    parsed dictionary, or the exception raised while reading or parsing. *)
Variable read_json : string -> Result PyDict.

(** One iteration of the first loop. *)
Definition map_step (file_map : list (string * FileInfo)) (filename : string)
    : list (string * FileInfo) :=
  if py_startswith_dot filename then file_map
  else if py_endswith filename "_translated.txt" then
    setdefault_update (drop_suffix filename "_translated.txt")
      (set_translated filename) file_map
  else if py_endswith filename "_metadata.json" then
    (* the right-hand side [json.load(f)] is evaluated before [setdefault] *)
    match read_json (os_path_join UPLOADS_DIR filename) with
    | Ok d => setdefault_update (drop_suffix filename "_metadata.json")
                (set_metadata d) file_map
    | Exc _ => file_map   (* printed *)
    end
  else setdefault_update (splitext filename).1 (set_filename filename) file_map.

Definition build_file_map (names : list string) : list (string * FileInfo) :=
  fold_left map_step names [].

(** The second loop: only entries with an original [filename]. *)
Definition to_entries (file_map : list (string * FileInfo)) : list FileEntry :=
  flat_map (fun kv => match fi_filename kv.2 with
                      | Some f => [mkEntry f (fi_translated kv.2) (fi_metadata kv.2)]
                      | None => []
                      end) file_map.

(** [listdir] is the outcome of [os.listdir(UPLOADS_DIR)]. *)
Definition get_uploaded_files (listdir : Result (list string)) : FilesResponse :=
  match listdir with
  | Ok names => mkFiles (to_entries (build_file_map names)) None
  | Exc e => mkFiles [] (Some (exn_str e))
  end.

End Files.

End Listing.

(* ======================================================================== *)
(** * Proofs *)

(** ** The translation client *)
Module TranslationProofs.
Import Translation.

Lemma py_range_retries : py_range 0 MAX_RETRIES 1 = [0; 1; 2].
Proof. reflexivity. Qed.

Lemma concat_take_drop {A} (s k : nat) (l : list A) :
  length l <= k * s ->
  concat (map (fun j => take s (drop (j * s) l)) (seq 0 k)) = l.
Proof.
  revert l. induction k as [|k IH]; intros l Hl.
  - simpl in Hl. destruct l; [reflexivity | simpl in Hl; lia].
  - rewrite <- cons_seq, <- seq_shift, map_cons, map_map. simpl.
    rewrite (map_ext (fun x => take s (drop (s + x * s) l))
                     (fun x => take s (drop (x * s) (drop s l)))).
    + rewrite IH.
      * apply firstn_skipn.
      * rewrite length_drop. simpl in Hl. lia.
    + intros j. rewrite skipn_skipn. f_equal. f_equal. lia.
Qed.

Lemma CHUNK_SIZE_pos : 0 < CHUNK_SIZE.
Proof. unfold CHUNK_SIZE. lia. Qed.

Lemma text_chunks_concat {Char} (text : list Char) :
  concat (text_chunks text) = text.
Proof.
  unfold text_chunks, py_range, py_slice, py_range_len.
  pose proof CHUNK_SIZE_pos as Hpos.
  rewrite map_map.
  rewrite (map_ext _ (fun j => take CHUNK_SIZE (drop (j * CHUNK_SIZE) text))).
  - apply concat_take_drop.
    set (m := length text - 0 + CHUNK_SIZE - 1).
    pose proof (Nat.div_mod m CHUNK_SIZE ltac:(lia)) as Hd.
    pose proof (Nat.mod_upper_bound m CHUNK_SIZE ltac:(lia)).
    subst m. nia.
  - intros j. f_equal; lia.
Qed.

Lemma text_chunks_bounded {Char} (text : list Char) :
  Forall (fun c => length c <= CHUNK_SIZE) (text_chunks text).
Proof.
  unfold text_chunks, py_slice. apply Forall_forall.
  intros c Hc. apply list_elem_of_In, in_map_iff in Hc as (i & <- & _).
  rewrite length_take. lia.
Qed.

Lemma chunk_loop_success {Char} (tr : nat -> list Char -> Outcome Char) f :
  (forall n c, tr n c = Success (f c)) ->
  forall chunks acc st,
    fst (chunk_loop tr chunks acc st) = Ok (acc ++ map f chunks).
Proof.
  intros Htr chunks. induction chunks as [|c cs IH]; intros acc st;
    cbn [chunk_loop].
  - rewrite app_nil_r. reflexivity.
  - rewrite py_range_retries. cbn [retry_loop]. rewrite Htr.
    rewrite IH, <- app_assoc. reflexivity.
Qed.

(** C2: [translate_text] cuts its input into consecutive slices of at most
    [CHUNK_SIZE] = 4800 characters whose concatenation in index order is
    the input, and returns the concatenation of the per-chunk translations
    in index order; with an identity transport it returns its input. *)
Theorem translate_text_chunk_roundtrip {Char} (text : list Char)
    (key : string) (f : list Char -> list Char)
    (tr : nat -> list Char -> Outcome Char) (st : St Char) :
  key <> "" ->
  (forall n c, tr n c = Success (f c)) ->
  Forall (fun c => length c <= CHUNK_SIZE) (text_chunks text) /\
  concat (text_chunks text) = text /\
  fst (translate_text tr (Some key) text st) = Ok (concat (map f (text_chunks text))) /\
  (forall tr' : nat -> list Char -> Outcome Char,
     (forall n c, tr' n c = Success c) ->
     fst (translate_text tr' (Some key) text st) = Ok text).
Proof.
  intros Hkey Htr.
  assert (Hrun : forall g (t : nat -> list Char -> Outcome Char),
            (forall n c, t n c = Success (g c)) ->
            fst (translate_text t (Some key) text st)
            = Ok (concat (map g (text_chunks text)))).
  { intros g t Ht. unfold translate_text.
    assert (Hk : match key with "" => False | _ => True end)
      by (destruct key; [congruence | exact I]).
    pose proof (chunk_loop_success t g Ht (text_chunks text) [] st) as Hl.
    destruct (chunk_loop t (text_chunks text) [] st) as [[tc|e] st'] eqn:E;
      simpl in Hl; inversion Hl; subst.
    destruct key; [contradiction | reflexivity]. }
  split; [apply text_chunks_bounded|].
  split; [apply text_chunks_concat|].
  split; [apply Hrun, Htr|].
  intros tr' Htr'. rewrite (Hrun (fun c => c) tr' Htr'), map_id.
  f_equal. apply text_chunks_concat.
Qed.

Lemma translate_text_chunk_roundtrip_witness :
  fst (translate_text (fun (_ : nat) (c : list nat) => Success c) (Some "k")
         [1; 2; 3] (mkSt 0 []))
  = Ok (concat (map (fun c => c) (text_chunks [1; 2; 3]))).
Proof.
  destruct (translate_text_chunk_roundtrip [1; 2; 3] "k" (fun c => c)
              (fun _ c => Success c) (mkSt 0 []) ltac:(discriminate)
              (fun _ _ => eq_refl)) as (_ & _ & H & _).
  exact H.
Defined.

(** C3: for a chunk whose every request gets HTTP 429, the retry loop of
    [translate_text] posts it exactly three times, sleeping 2s then 4s in
    between, and the third failure is raised (the translation error of the
    contract is the re-raised [httpx.HTTPStatusError]); any other upstream
    error, at any attempt, is raised right after that single request. *)
Theorem translate_text_retry_policy {Char}
    (tr1 tr2 : nat -> list Char -> Outcome Char) (c : list Char)
    (acc : list (list Char)) (st : St Char) :
  (forall n, tr1 n c = StatusError 429) ->
  match tr2 (posts st) c with
  | StatusError code => code <> 429
  | OtherError _ => True
  | Success _ => False
  end ->
  retry_loop tr1 (py_range 0 MAX_RETRIES 1) c acc st
  = (Exc (HTTPStatusError 429),
     mkSt (posts st + 3) (log st ++ [Post c; Sleep 2; Post c; Sleep 4; Post c])) /\
  (forall attempt rest, exists e,
     retry_loop tr2 (attempt :: rest) c acc st = (Exc e, post st c)).
Proof.
  intros H429 Hother. split.
  - rewrite py_range_retries. cbn [retry_loop]. rewrite !H429.
    cbn. unfold post, sleep. simpl. rewrite <- !app_assoc.
    f_equal. f_equal. lia.
  - intros attempt rest. cbn [retry_loop].
    destruct (tr2 (posts st) c) as [t|code|m]; [contradiction| |eauto].
    apply Nat.eqb_neq in Hother. rewrite Hother. simpl. eauto.
Qed.

Lemma translate_text_retry_policy_witness :
  retry_loop (fun _ _ => StatusError 429) (py_range 0 MAX_RETRIES 1) [7] []
    (mkSt 0 [])
  = (Exc (HTTPStatusError 429),
     mkSt 3 [Post [7]; Sleep 2; Post [7]; Sleep 4; Post [7]]).
Proof.
  destruct (translate_text_retry_policy (fun _ _ => StatusError 429)
              (fun _ _ => StatusError 500) [7] [] (mkSt 0 [])
              (fun _ => eq_refl) ltac:(simpl; discriminate)) as [H _].
  exact H.
Defined.

(** C10: with [TRANSLATOR_API_KEY] unset, [translate_text] raises a
    [ValueError] before any request: the client state is untouched. *)
Theorem translate_text_requires_key {Char}
    (tr : nat -> list Char -> Outcome Char) (text : list Char) (st : St Char) :
  translate_text tr None text st
  = (Exc (ValueError "TRANSLATOR_API_KEY environment variable not set."), st).
Proof. reflexivity. Qed.

End TranslationProofs.

(** ** The pipeline of main.py *)
Module BackendProofs.
Import Backend.

Ltac mrun :=
  unfold mbind, M_bind, ret, raise, try_except, lift, status_put, respond,
    write_file, remove_if_exists, os_remove, os_path_exists in *;
  cbn [fst snd store trace] in *.

(** The scan lets the job through: clean verdict or no [clamscan]. *)
Definition scan_passes (clamscan : string -> ScanRun) (file_path : string) : Prop :=
  (exists err, clamscan file_path = Completed 0 err) \/ clamscan file_path = BinaryNotFound.

Lemma scan_file_pass clamscan file_path s :
  scan_passes clamscan file_path -> scan_file clamscan file_path s = (Ok tt, s).
Proof.
  intros [[err H]|H]; unfold scan_file, try_except; rewrite H; reflexivity.
Qed.

Lemma string_app_cons c (x y : string) : String c x +:+ y = String c (x +:+ y).
Proof. reflexivity. Qed.

Lemma string_app_assoc (x y z : string) : (x +:+ y) +:+ z = x +:+ (y +:+ z).
Proof.
  induction x as [|c x IH]; [reflexivity|].
  rewrite !string_app_cons, IH. reflexivity.
Qed.

Lemma string_app_inj (p x y : string) : p +:+ x = p +:+ y -> x = y.
Proof.
  induction p as [|c p IH]; [auto|].
  rewrite !string_app_cons. intros H. injection H. auto.
Qed.

Lemma join_app_nonempty (a : string) c b s :
  os_path_join a (String c b +:+ s) = os_path_join a (String c b) +:+ s.
Proof.
  unfold os_path_join. rewrite string_app_cons.
  destruct c as [[] [] [] [] [] [] [] []]; rewrite ?string_app_assoc; reflexivity.
Qed.

(** The two derived artifacts of a file never share a path. *)
Lemma translated_metadata_paths_differ file_path :
  translated_path_of file_path <> metadata_path_of file_path.
Proof.
  unfold translated_path_of, metadata_path_of.
  destruct (base_of file_path) as [|c b].
  - discriminate.
  - rewrite !join_app_nonempty. intros H. apply string_app_inj in H. discriminate.
Qed.

(** C1 (as the code has it): when the translation stage raises, the
    exception is printed and swallowed inside [process_and_translate_file];
    the job goes on to publish [Complete], returns a success entry, and the
    uploads directory is left as it was: the original is kept and neither
    derived artifact is written. No [Error] event is published. *)
Theorem translation_failure_completes clamscan run_extractor translate_text
    process_file_metadata open_error (filename file_ext file_path : string) (s : State)
    x original_text e :
  scan_passes clamscan file_path ->
  dict_get text_extractors file_ext = Some x ->
  run_extractor x file_path = Ok original_text ->
  py_str_blank original_text = false ->
  translate_text original_text = Exc e ->
  process_file_in_background clamscan run_extractor translate_text
    process_file_metadata open_error filename file_ext file_path s
  = (Ok (mkResult filename "success" None),
     mkState (store s)
       (trace s ++ [Published (mkEvent filename "Scanning for malware..." None);
                    Published (mkEvent filename "Processing..." None);
                    Published (mkEvent filename "Translating..." None);
                    Published (mkEvent filename "Complete"
                                 (Some "Processing finished successfully."))])).
Proof.
  intros Hscan Hx Hrun Hblank Htr.
  unfold process_file_in_background, process_and_translate_file.
  mrun. rewrite scan_file_pass by exact Hscan.
  rewrite Hx, Hrun, Hblank, Htr. cbn.
  rewrite <- !app_assoc. reflexivity.
Qed.

Lemma translation_failure_completes_witness :
  process_file_in_background (fun _ => Completed 0 "") (fun _ _ => Ok "hello")
    (fun _ => Exc (Exception "Client error '429 Too Many Requests'"))
    (fun _ _ _ => Ok ∅) (fun _ => None) "paper.txt" ".txt" "uploads/paper.txt"
    (mkState {[ "uploads/paper.txt" := OriginalBytes 5 ]} [])
  = (Ok (mkResult "paper.txt" "success" None),
     mkState {[ "uploads/paper.txt" := OriginalBytes 5 ]}
       ([] ++ [Published (mkEvent "paper.txt" "Scanning for malware..." None);
               Published (mkEvent "paper.txt" "Processing..." None);
               Published (mkEvent "paper.txt" "Translating..." None);
               Published (mkEvent "paper.txt" "Complete"
                            (Some "Processing finished successfully."))])).
Proof.
  exact (translation_failure_completes (fun _ => Completed 0 "") (fun _ _ => Ok "hello")
    (fun _ => Exc (Exception "Client error '429 Too Many Requests'"))
    (fun _ _ _ => Ok ∅) (fun _ => None) "paper.txt" ".txt" "uploads/paper.txt"
    (mkState {[ "uploads/paper.txt" := OriginalBytes 5 ]} [])
    extract_text_from_txt "hello" (Exception "Client error '429 Too Many Requests'")
    (or_introl (ex_intro _ "" eq_refl)) eq_refl eq_refl eq_refl eq_refl).
Defined.

(** C1 fails as stated: a job whose translation raises publishes no
    [Error] event at all. *)
Lemma translation_failure_no_error_event :
  ~ exists d, In (Published (mkEvent "paper.txt" "Error" d))
      (trace (snd (process_file_in_background (fun _ => Completed 0 "")
         (fun _ _ => Ok "hello")
         (fun _ => Exc (Exception "Client error '429 Too Many Requests'"))
         (fun _ _ _ => Ok ∅) (fun _ => None) "paper.txt" ".txt" "uploads/paper.txt"
         (mkState {[ "uploads/paper.txt" := OriginalBytes 5 ]} [])))).
Proof.
  vm_compute. intros [d H]. repeat destruct H as [H|H]; try discriminate; contradiction.
Qed.

(** C5: an infected verdict ([clamscan] exit code 1) deletes the upload and
    ends the job in [Error], but the "Malware detected" exception is raised
    inside the [try] of [scan_file] and caught by its own
    [except Exception], so the detail published is the generic one. *)
Theorem infected_scan_reports_generic_error :
  process_file_in_background (fun _ => Completed 1 "") (fun _ _ => Ok "hello")
    (fun t => Ok t) (fun _ _ _ => Ok ∅) (fun _ => None) "paper.txt" ".txt" "uploads/paper.txt"
    (mkState {[ "uploads/paper.txt" := OriginalBytes 5 ]} [])
  = (Ok (mkResult "paper.txt" "error"
           (Some "An unexpected server error occurred during file security processing.")),
     mkState ∅
       [Published (mkEvent "paper.txt" "Scanning for malware..." None);
        Published (mkEvent "paper.txt" "Error"
          (Some "An unexpected server error occurred during file security processing."))]).
Proof. vm_compute. reflexivity. Qed.

(** C6: with no extractor for the extension, or with blank extracted
    text (Python whitespace only, [\xa0] included), the job publishes
    [Complete] right after extraction, returns a success entry and writes
    nothing: the uploads directory is unchanged,
    so neither [_translated.txt] nor [_metadata.json] is created, and no
    [Error] event is published. *)
Theorem nothing_to_do_completes clamscan run_extractor translate_text
    process_file_metadata open_error (filename file_ext file_path : string) (s : State) :
  scan_passes clamscan file_path ->
  (dict_get text_extractors file_ext = None \/
   exists x t, dict_get text_extractors file_ext = Some x /\
               run_extractor x file_path = Ok t /\ py_str_blank t = true) ->
  exists evs,
    (evs = [] \/ evs = [Published (mkEvent filename "Processing..." None)]) /\
    process_file_in_background clamscan run_extractor translate_text
      process_file_metadata open_error filename file_ext file_path s
    = (Ok (mkResult filename "success" None),
       mkState (store s)
         (trace s ++ [Published (mkEvent filename "Scanning for malware..." None)]
                  ++ evs ++
                  [Published (mkEvent filename "Complete"
                               (Some "Processing finished successfully."))])).
Proof.
  intros Hscan Hext.
  unfold process_file_in_background, process_and_translate_file.
  mrun. rewrite scan_file_pass by exact Hscan.
  destruct Hext as [Hnone | (x & t & Hx & Hrun & Hblank)].
  - exists []. split; [left; reflexivity|]. rewrite Hnone. cbn.
    rewrite <- !app_assoc. reflexivity.
  - eexists. split; [right; reflexivity|]. rewrite Hx, Hrun, Hblank. cbn.
    rewrite <- !app_assoc. reflexivity.
Qed.

Lemma nothing_to_do_completes_witness :
  exists evs,
    (evs = [] \/ evs = [Published (mkEvent "notes.txt" "Processing..." None)]) /\
    process_file_in_background (fun _ => BinaryNotFound) (fun _ _ => Ok (String " " (String (ascii_of_nat 160) "")))
      (fun t => Ok t) (fun _ _ _ => Ok ∅) (fun _ => None) "notes.txt" ".txt" "uploads/notes.txt"
      (mkState ∅ [])
    = (Ok (mkResult "notes.txt" "success" None),
       mkState ∅
         ([] ++ [Published (mkEvent "notes.txt" "Scanning for malware..." None)]
             ++ evs ++
             [Published (mkEvent "notes.txt" "Complete"
                          (Some "Processing finished successfully."))])).
Proof.
  exact (nothing_to_do_completes (fun _ => BinaryNotFound) (fun _ _ => Ok (String " " (String (ascii_of_nat 160) "")))
    (fun t => Ok t) (fun _ _ _ => Ok ∅) (fun _ => None) "notes.txt" ".txt" "uploads/notes.txt"
    (mkState ∅ []) (or_intror eq_refl)
    (or_intror (ex_intro _ extract_text_from_txt (ex_intro _ (String " " (String (ascii_of_nat 160) ""))
       (conj eq_refl (conj eq_refl eq_refl)))))).
Defined.

(** C7 (as the code has it): when the metadata deriver raises, the job
    goes on to publish [Complete], never [Error], and returns a success
    entry. [process_and_save_metadata] then tries to write the minimal
    record (title = base name, authors = ["No Authors"],
    keywords = ["general"]) with an [error] field to [{base}_metadata.json]:
    if that path can be opened, the file holds this record; if it cannot,
    the [save_error] is printed and swallowed and the path is left as it
    was. *)
Theorem metadata_failure_falls_back clamscan run_extractor translate_text
    process_file_metadata open_error (filename file_ext file_path : string) (s : State)
    x original_text translated_text e :
  scan_passes clamscan file_path ->
  dict_get text_extractors file_ext = Some x ->
  run_extractor x file_path = Ok original_text ->
  py_str_blank original_text = false ->
  translate_text original_text = Ok translated_text ->
  process_file_metadata file_path file_ext translated_text = Exc e ->
  let res := process_file_in_background clamscan run_extractor translate_text
               process_file_metadata open_error filename file_ext file_path s in
  fst res = Ok (mkResult filename "success" None) /\
  trace (snd res) =
    trace s ++ [Published (mkEvent filename "Scanning for malware..." None);
                Published (mkEvent filename "Processing..." None);
                Published (mkEvent filename "Translating..." None);
                Published (mkEvent filename "Extracting Metadata..." None);
                Published (mkEvent filename "Complete"
                             (Some "Processing finished successfully."))] /\
  (open_error (metadata_path_of file_path) = None ->
   exists md : PyDict,
     store (snd res) !! metadata_path_of file_path = Some (JsonFile md) /\
     md !! "title" = Some (PStr (base_of file_path)) /\
     md !! "authors" = Some (PList [PStr "No Authors"]) /\
     md !! "keywords" = Some (PList [PStr "general"]) /\
     md !! "error" = Some (PStr ("Error processing metadata for " +:+
                                 basename file_path +:+ ": " +:+ exn_str e))) /\
  (open_error (metadata_path_of file_path) <> None ->
   store (snd res) !! metadata_path_of file_path = store s !! metadata_path_of file_path).
Proof.
  intros Hscan Hx Hrun Hblank Htr Hmd res. subst res.
  unfold process_file_in_background, process_and_translate_file,
    process_and_save_metadata.
  mrun. rewrite scan_file_pass by exact Hscan.
  rewrite Hx, Hrun, Hblank, Htr, Hmd. cbn.
  pose proof (translated_metadata_paths_differ file_path) as Hne.
  destruct (open_error (metadata_path_of file_path)) as [e1|] eqn:Eo; cbn;
    destruct (negb (String.eqb translated_text "")); cbn;
    try destruct (open_error (translated_path_of file_path)) as [e2|] eqn:Et; cbn;
    (split; [reflexivity|]); (split; [rewrite <- !app_assoc; reflexivity|]);
    split; intros Ho; try congruence.
  all: try (rewrite lookup_insert_ne by congruence; reflexivity).
  all: eexists; (split; [try rewrite lookup_insert_ne by congruence;
                         apply lookup_insert_eq|]);
    unfold minimal_metadata; repeat split; simplify_map_eq; reflexivity.
Qed.

Lemma metadata_failure_falls_back_witness :
  fst (process_file_in_background (fun _ => Completed 0 "") (fun _ _ => Ok "hola")
         (fun _ => Ok "hello") (fun _ _ _ => Exc (Exception "quota exceeded"))
         (fun _ => None) "paper.txt" ".txt" "uploads/paper.txt" (mkState ∅ []))
  = Ok (mkResult "paper.txt" "success" None).
Proof.
  destruct (metadata_failure_falls_back (fun _ => Completed 0 "") (fun _ _ => Ok "hola")
    (fun _ => Ok "hello") (fun _ _ _ => Exc (Exception "quota exceeded"))
    (fun _ => None) "paper.txt" ".txt" "uploads/paper.txt" (mkState ∅ []) extract_text_from_txt
    "hola" "hello" (Exception "quota exceeded")
    (or_introl (ex_intro _ "" eq_refl)) eq_refl eq_refl eq_refl eq_refl eq_refl)
    as [H _].
  exact H.
Defined.

(** An upload named with 247 letters and [.txt]: its own name fits in
    [NAME_MAX], but [{base}_metadata.json] and [{base}_translated.txt] do
    not. *)
Definition long_name : string := string_of_list_ascii (repeat "a"%char 247) +:+ ".txt".

(** C7 fails as stated: through [/api/upload/] on Linux, a file with that
    name whose metadata deriver raises is reported as a success and
    publishes [Complete], yet no [{base}_metadata.json] is written. *)
Lemma metadata_fallback_not_written :
  let res := upload_files (fun _ => Completed 0 "") (fun _ _ => Ok "hola")
               (fun _ => Ok "hello") (fun _ _ _ => Exc (Exception "quota exceeded"))
               name_too_long [mkUpload long_name 5] (mkState ∅ []) in
  fst res = Ok (mkResponse "Started processing 1 file(s)" 1 0
                  [mkResult long_name "success" None]) /\
  In (Published (mkEvent long_name "Complete" (Some "Processing finished successfully.")))
     (trace (snd res)) /\
  store (snd res) !! metadata_path_of (os_path_join UPLOADS_DIR long_name) = None /\
  store (snd res) !! translated_path_of (os_path_join UPLOADS_DIR long_name) = None.
Proof.
  cbv zeta. split; [vm_compute; reflexivity|]. split; [|split; vm_compute; reflexivity].
  vm_compute. do 4 right. left. reflexivity.
Qed.

Lemma scan_file_trace clamscan file_path s :
  trace (snd (scan_file clamscan file_path s)) = trace s.
Proof.
  unfold scan_file. mrun.
  destruct (clamscan file_path); cbn; [|reflexivity|].
  - destruct (Z.eqb returncode 1); cbn.
    + destruct (store s !! file_path); cbn; [|reflexivity].
      destruct (delete file_path (store s) !! file_path); reflexivity.
    + destruct (negb (Z.eqb returncode 0)); cbn; [|reflexivity].
      destruct (store s !! file_path); cbn; [|reflexivity].
      destruct (delete file_path (store s) !! file_path); reflexivity.
  - destruct (store s !! file_path); reflexivity.
Qed.

Lemma process_and_save_metadata_trace process_file_metadata open_error
    file_path file_ext text filename s :
  exists T, trace (snd (process_and_save_metadata process_file_metadata open_error
                          file_path file_ext text filename s)) = trace s ++ T.
Proof.
  unfold process_and_save_metadata. mrun.
  destruct (process_file_metadata file_path file_ext text); cbn;
    repeat (destruct (open_error _); cbn); eauto.
Qed.

Lemma process_and_translate_file_trace run_extractor translate_text
    process_file_metadata open_error file_path file_ext filename s :
  exists T, trace (snd (process_and_translate_file run_extractor translate_text
                          process_file_metadata open_error file_path file_ext filename s))
            = trace s ++ T.
Proof.
  unfold process_and_translate_file. mrun.
  destruct (dict_get text_extractors file_ext) as [x|]; cbn; [|exists []; symmetry; apply app_nil_r].
  destruct (run_extractor x file_path) as [t|e]; cbn; [|eauto].
  destruct (py_str_blank t); cbn; [eauto|].
  destruct (translate_text t) as [t'|e]; cbn;
    [|eexists; rewrite <- !app_assoc; reflexivity].
  match goal with
  | |- context [process_and_save_metadata ?p ?oe ?a ?b ?c ?d ?st] =>
      destruct (process_and_save_metadata_trace p oe a b c d st) as [T HT];
      destruct (process_and_save_metadata p oe a b c d st) as [[md|e] s2] eqn:E
  end; cbn in *.
  - destruct (negb (String.eqb t' "")); cbn;
      [destruct (open_error _); cbn|]; rewrite HT;
      eexists; rewrite <- !app_assoc; reflexivity.
  - rewrite HT. eexists; rewrite <- !app_assoc; reflexivity.
Qed.

(** Every run of [process_file_in_background] returns an entry for its
    file, and publishes [Complete] (success entry) or [Error] (error entry). *)
Lemma process_file_in_background_terminal clamscan run_extractor translate_text
    process_file_metadata open_error filename file_ext file_path s :
  exists r T,
    fst (process_file_in_background clamscan run_extractor translate_text
           process_file_metadata open_error filename file_ext file_path s) = Ok r /\
    trace (snd (process_file_in_background clamscan run_extractor translate_text
           process_file_metadata open_error filename file_ext file_path s)) = trace s ++ T /\
    r_filename r = filename /\
    ((r_status r = "success" /\
      In (Published (mkEvent filename "Complete"
                       (Some "Processing finished successfully."))) T) \/
     (r_status r = "error" /\
      exists d, In (Published (mkEvent filename "Error" d)) T)).
Proof.
  unfold process_file_in_background. mrun.
  set (s1 := {| store := store s;
                trace := trace s ++ [Published (mkEvent filename "Scanning for malware..." None)] |}).
  pose proof (scan_file_trace clamscan file_path s1) as H1.
  destruct (scan_file clamscan file_path s1) as [[[]|e] s2] eqn:E1; cbn in H1.
  - destruct (process_and_translate_file_trace run_extractor translate_text
                process_file_metadata open_error file_path file_ext filename s2) as [T2 H2].
    destruct (process_and_translate_file run_extractor translate_text
                process_file_metadata open_error file_path file_ext filename s2)
      as [[[]|e] s3] eqn:E2; cbn in H2 |- *.
    + do 2 eexists. split; [reflexivity|].
      split; [rewrite H2, H1; subst s1; cbn; rewrite <- !app_assoc; reflexivity|].
      split; [reflexivity|]. left. split; [reflexivity|].
      rewrite !in_app_iff. right. right. left. reflexivity.
    + destruct (store s3 !! file_path); cbn;
        (do 2 eexists; split; [reflexivity|];
         split; [rewrite H2, H1; subst s1; cbn; rewrite <- !app_assoc; reflexivity|];
         split; [reflexivity|]; right; split; [reflexivity|];
         eexists; rewrite !in_app_iff; right; right; left; reflexivity).
  - destruct (store s2 !! file_path); cbn;
      (do 2 eexists; split; [reflexivity|];
       split; [rewrite H1; subst s1; cbn; rewrite <- !app_assoc; reflexivity|];
       split; [reflexivity|]; right; split; [reflexivity|];
       eexists; rewrite !in_app_iff; right; left; reflexivity).
Qed.

Lemma process_single_file_terminal clamscan run_extractor translate_text
    process_file_metadata open_error (file : UploadFile) s :
  exists r T,
    fst (process_single_file clamscan run_extractor translate_text
           process_file_metadata open_error file s) = Ok r /\
    trace (snd (process_single_file clamscan run_extractor translate_text
           process_file_metadata open_error file s)) = trace s ++ T /\
    r_filename r = up_filename file /\
    (r_status r = "success" ->
     In (Published (mkEvent (up_filename file) "Complete"
                      (Some "Processing finished successfully."))) T) /\
    (existsb (String.eqb (py_lower (splitext (up_filename file)).2))
       ALLOWED_EXTENSIONS = true ->
     N.leb (up_size file) MAX_FILE_SIZE = true ->
     open_error (os_path_join UPLOADS_DIR (up_filename file)) = None ->
     exists st d, In (Published (mkEvent (up_filename file) st d)) T /\
                  (st = "Complete" \/ st = "Error")).
Proof.
  unfold process_single_file. mrun. unfold os_path_getsize.
  destruct (existsb _ ALLOWED_EXTENSIONS) eqn:Eext; cbn.
  - destruct (open_error (os_path_join UPLOADS_DIR (up_filename file))) as [e|] eqn:Eo;
      cbn.
    { destruct (store s !! _); cbn;
        (do 2 eexists; split; [reflexivity|]; split; [symmetry; apply app_nil_r|];
         split; [reflexivity|]; split; [discriminate|]; intros; congruence). }
    rewrite lookup_insert_eq. cbn.
    destruct (N.ltb MAX_FILE_SIZE (up_size file)) eqn:Esize; cbn.
    + rewrite lookup_insert_eq. cbn. rewrite lookup_delete_eq. cbn.
      do 2 eexists. split; [reflexivity|]. split; [symmetry; apply app_nil_r|].
      split; [reflexivity|]. split; [discriminate|].
      intros _ Hle _. apply N.ltb_lt in Esize. apply N.leb_le in Hle. lia.
    + match goal with
      | |- context [process_file_in_background ?a ?b ?c ?d ?oe ?f ?x ?p ?st] =>
          destruct (process_file_in_background_terminal a b c d oe f x p st)
            as (r & T & Hr & HT & Hf & Hst);
          destruct (process_file_in_background a b c d oe f x p st) as [r' st'] eqn:E
      end. cbn in *. subst r'.
      exists r, T. split; [reflexivity|]. split; [exact HT|].
      split; [exact Hf|].
      split.
      * intros Hs. destruct Hst as [[_ H]|[He _]]; [exact H|congruence].
      * intros _ _ _. destruct Hst as [[_ H]|[_ [d H]]]; eauto.
  - destruct (store s !! _); cbn;
      (do 2 eexists; split; [reflexivity|]; split; [symmetry; apply app_nil_r|];
       split; [reflexivity|]; split; [discriminate|]; intros; discriminate).
Qed.

Lemma gather_terminal clamscan run_extractor translate_text process_file_metadata open_error
    (files : list UploadFile) s :
  exists rs T,
    fst (gather clamscan run_extractor translate_text process_file_metadata open_error files s)
      = Ok rs /\
    trace (snd (gather clamscan run_extractor translate_text
                  process_file_metadata open_error files s)) = trace s ++ T /\
    length rs = length files /\
    (forall r, In r rs -> r_status r = "success" ->
       In (Published (mkEvent (r_filename r) "Complete"
                        (Some "Processing finished successfully."))) T) /\
    (forall f, In f files ->
       existsb (String.eqb (py_lower (splitext (up_filename f)).2))
         ALLOWED_EXTENSIONS = true ->
       N.leb (up_size f) MAX_FILE_SIZE = true ->
       open_error (os_path_join UPLOADS_DIR (up_filename f)) = None ->
       exists st d, In (Published (mkEvent (up_filename f) st d)) T /\
                    (st = "Complete" \/ st = "Error")).
Proof.
  revert s. induction files as [|f fs IH]; intros s; cbn [gather].
  - exists [], []. mrun. repeat split; [symmetry; apply app_nil_r| |];
      intros ? [].
  - mrun.
    destruct (process_single_file_terminal clamscan run_extractor translate_text
                process_file_metadata open_error f s) as (r & T1 & Hr & HT1 & Hf & Hs & Ha).
    destruct (process_single_file clamscan run_extractor translate_text
                process_file_metadata open_error f s) as [r' s1] eqn:E1.
    cbn in Hr, HT1. subst r'.
    destruct (IH s1) as (rs & T2 & Hrs & HT2 & Hlen & Hss & Has).
    destruct (gather clamscan run_extractor translate_text process_file_metadata open_error fs s1)
      as [rs' s2] eqn:E2.
    cbn in Hrs, HT2. subst rs'.
    exists (r :: rs), (T1 ++ T2). cbn.
    split; [reflexivity|]. split; [rewrite HT2, HT1, app_assoc; reflexivity|].
    split; [cbn; lia|]. split.
    + intros r0 [<-|Hin] Hst; apply in_app_iff.
      * left. rewrite Hf. auto.
      * right. auto.
    + intros f0 [<-|Hin] Hext Hsize Hopen.
      * destruct (Ha Hext Hsize Hopen) as (st & d & Hin & Ht).
        exists st, d. rewrite in_app_iff. auto.
      * destruct (Has f0 Hin Hext Hsize Hopen) as (st & d & Hin' & Ht).
        exists st, d. rewrite in_app_iff. auto.
Qed.

(** C4 (as the code has it): [/api/upload/] awaits every job's whole
    pipeline before it responds. The response comes last, after every
    event the jobs published. Every accepted file (allowed extension, an
    upload path that [open] accepts, size at most [MAX_FILE_SIZE]) has
    already published its terminal [Complete] or [Error] event by then;
    the others failed ingestion. Every "success" entry in [details] reports a
    [Complete] event that was already published. *)
Theorem upload_waits_for_pipelines clamscan run_extractor translate_text
    process_file_metadata open_error (files : list UploadFile) (s : State) :
  files <> [] ->
  exists resp T,
    fst (upload_files clamscan run_extractor translate_text process_file_metadata open_error
           files s) = Ok resp /\
    trace (snd (upload_files clamscan run_extractor translate_text
                  process_file_metadata open_error files s)) = trace s ++ T ++ [Responded resp] /\
    length (details resp) = length files /\
    (forall r, In r (details resp) -> r_status r = "success" ->
       In (Published (mkEvent (r_filename r) "Complete"
                        (Some "Processing finished successfully."))) T) /\
    (forall f, In f files ->
       existsb (String.eqb (py_lower (splitext (up_filename f)).2))
         ALLOWED_EXTENSIONS = true ->
       N.leb (up_size f) MAX_FILE_SIZE = true ->
       open_error (os_path_join UPLOADS_DIR (up_filename f)) = None ->
       exists st d, In (Published (mkEvent (up_filename f) st d)) T /\
                    (st = "Complete" \/ st = "Error")).
Proof.
  intros Hne. unfold upload_files.
  destruct files as [|f fs] eqn:Ef; [congruence|]. rewrite <- Ef.
  mrun.
  destruct (gather_terminal clamscan run_extractor translate_text
              process_file_metadata open_error files s) as (rs & T & Hrs & HT & Hlen & Hs & Ha).
  destruct (gather clamscan run_extractor translate_text process_file_metadata open_error files s)
    as [rs' s1] eqn:E. cbn in Hrs, HT. subst rs'.
  eexists. exists T. cbn. split; [reflexivity|].
  split; [rewrite HT, app_assoc; reflexivity|].
  split; [exact Hlen|]. split; [exact Hs|exact Ha].
Qed.

Lemma upload_waits_for_pipelines_witness :
  fst (upload_files (fun _ => Completed 0 "") (fun _ _ => Ok "hola")
         (fun _ => Ok "hello") (fun _ _ _ => Ok ∅) (fun _ => None) [mkUpload "paper.txt" 5]
         (mkState ∅ []))
  = Ok (mkResponse "Started processing 1 file(s)" 1 0
          [mkResult "paper.txt" "success" None]).
Proof.
  destruct (upload_waits_for_pipelines (fun _ => Completed 0 "") (fun _ _ => Ok "hola")
              (fun _ => Ok "hello") (fun _ _ _ => Ok ∅) (fun _ => None) [mkUpload "paper.txt" 5]
              (mkState ∅ []) ltac:(discriminate)) as (resp & T & H & _).
  rewrite H. f_equal. vm_compute in H. injection H as <-. reflexivity.
Defined.

(** C4 fails as stated: for a one-file batch the response is sent only
    after the job has gone through scanning, extraction, translation and
    metadata and has published [Complete]. *)
Lemma upload_responds_after_complete :
  trace (snd (upload_files (fun _ => Completed 0 "") (fun _ _ => Ok "hola")
                (fun _ => Ok "hello") (fun _ _ _ => Ok ∅) (fun _ => None) [mkUpload "paper.txt" 5]
                (mkState ∅ [])))
  = [Published (mkEvent "paper.txt" "Scanning for malware..." None);
     Published (mkEvent "paper.txt" "Processing..." None);
     Published (mkEvent "paper.txt" "Translating..." None);
     Published (mkEvent "paper.txt" "Extracting Metadata..." None);
     Published (mkEvent "paper.txt" "Complete" (Some "Processing finished successfully."));
     Responded (mkResponse "Started processing 1 file(s)" 1 0
                  [mkResult "paper.txt" "success" None])].
Proof. vm_compute. reflexivity. Qed.

End BackendProofs.

(** ** The metadata record of metadata_extraction.py *)
Module MetadataProofs.
Import Backend MetadataExtraction.

Lemma ensure_list_other k k' d (m : PyDict) :
  k <> k' -> ensure_list k d m !! k' = m !! k'.
Proof.
  intros Hne. unfold ensure_list.
  destruct (m !! k) as [v|]; [|apply lookup_insert_ne; exact Hne].
  destruct (py_truthy v); cbn; [|apply lookup_insert_ne; exact Hne].
  destruct v; try reflexivity. apply lookup_insert_ne; exact Hne.
Qed.

Lemma ensure_list_is_list k (dl : list PyVal) (m : PyDict) :
  dl <> [] ->
  exists l, ensure_list k (PList dl) m !! k = Some (PList l) /\ l <> [].
Proof.
  intros Hdl. unfold ensure_list.
  destruct (m !! k) as [v|] eqn:E; [|exists dl; rewrite lookup_insert_eq; auto].
  destruct (py_truthy v) eqn:Ev; cbn; [|exists dl; rewrite lookup_insert_eq; auto].
  destruct v as [|s|l].
  - discriminate.
  - exists [PStr s]. rewrite lookup_insert_eq. split; [reflexivity|discriminate].
  - exists l. rewrite E. split; [reflexivity|]. destruct l; [discriminate|congruence].
Qed.

Lemma ensure_list_default k d (m : PyDict) :
  py_get_truthy m k = false -> ensure_list k d m !! k = Some d.
Proof.
  unfold py_get_truthy, ensure_list. intros H.
  destruct (m !! k) as [v|]; [|apply lookup_insert_eq].
  rewrite H. apply lookup_insert_eq.
Qed.

Lemma clean_keeps_falsy (m : PyDict) k :
  py_get_truthy m k = false -> py_get_truthy (map_imap clean_value m) k = false.
Proof.
  unfold py_get_truthy. rewrite map_lookup_imap.
  destruct (m !! k) as [v|]; cbn; [|reflexivity].
  destruct v as [|s|l]; cbn; intros H.
  - reflexivity.
  - apply negb_false_iff, String.eqb_eq in H. subst s. reflexivity.
  - destruct l; [reflexivity|discriminate].
Qed.

Lemma py_get_truthy_insert_ne (m : PyDict) k k' v :
  k <> k' -> py_get_truthy (<[k := v]> m) k' = py_get_truthy m k'.
Proof. intros Hne. unfold py_get_truthy. rewrite lookup_insert_ne by exact Hne. reflexivity. Qed.

Lemma py_get_truthy_ensure_other (m : PyDict) k k' d :
  k <> k' -> py_get_truthy (ensure_list k d m) k' = py_get_truthy m k'.
Proof. intros Hne. unfold py_get_truthy. rewrite ensure_list_other by exact Hne. reflexivity. Qed.

(** C8: every record returned by [process_file_metadata] has [authors] and
    [keywords], both non-empty lists (never a bare string), and a [title].
    A derived field that is absent or falsy is replaced by its default:
    [authors] by ["No Authors"], [keywords] by ["general"], [title] by the
    base file name. *)
Theorem metadata_record_defaults (file_path file_ext text_content : string)
    (pdf_info : option PdfInfo) (generate_abstract : Result string)
    (generate_keywords : list string) (yake_keywords : Result (list string)) :
  let fm := derive_fields file_ext text_content pdf_info generate_abstract
              generate_keywords yake_keywords in
  let md := process_file_metadata file_path file_ext text_content pdf_info
              generate_abstract generate_keywords yake_keywords in
  (exists l, md !! "authors" = Some (PList l) /\ l <> []) /\
  (exists l, md !! "keywords" = Some (PList l) /\ l <> []) /\
  (exists v, md !! "title" = Some v) /\
  (py_get_truthy fm "authors" = false ->
     md !! "authors" = Some (PList [PStr "No Authors"])) /\
  (py_get_truthy fm "keywords" = false ->
     md !! "keywords" = Some (PList [PStr "general"])) /\
  (py_get_truthy fm "title" = false -> md !! "title" = Some (PStr (base_of file_path))).
Proof.
  intros fm md. subst md. unfold process_file_metadata. fold fm.
  unfold finalize.
  set (c0 := map_imap clean_value fm).
  set (c1 := if negb (py_get_truthy c0 "title")
             then <["title" := PStr (base_of file_path)]> c0 else c0).
  set (c2 := ensure_list "authors" (PList [PStr "No Authors"]) c1).
  assert (Htitle : exists v, c1 !! "title" = Some v).
  { subst c1. destruct (py_get_truthy c0 "title") eqn:E; cbn.
    - unfold py_get_truthy in E. destruct (c0 !! "title"); [eauto|discriminate].
    - rewrite lookup_insert_eq. eauto. }
  split.
  { destruct (ensure_list_is_list "authors" [PStr "No Authors"] c1 ltac:(discriminate))
      as (l & Hl & Hne).
    exists l. split; [|exact Hne].
    rewrite ensure_list_other by discriminate. exact Hl. }
  split; [apply ensure_list_is_list; discriminate|].
  split.
  { subst c2. rewrite !ensure_list_other by discriminate. exact Htitle. }
  split.
  { intros H. rewrite ensure_list_other by discriminate.
    apply ensure_list_default. subst c1.
    destruct (negb (py_get_truthy c0 "title")); cbn;
      [rewrite py_get_truthy_insert_ne by discriminate|];
      apply clean_keeps_falsy; exact H. }
  split.
  { intros H. apply ensure_list_default. subst c2.
    rewrite py_get_truthy_ensure_other by discriminate. subst c1.
    destruct (negb (py_get_truthy c0 "title")); cbn;
      [rewrite py_get_truthy_insert_ne by discriminate|];
      apply clean_keeps_falsy; exact H. }
  { intros H. subst c2. rewrite !ensure_list_other by discriminate. subst c1.
    apply clean_keeps_falsy in H. fold c0 in H. rewrite H. cbn.
    apply lookup_insert_eq. }
Qed.

End MetadataProofs.

(** ** The status stream *)
Module HubProofs.
Import StatusHub.

Lemma step_conserves {Event} (h : Hub Event) a :
  received (step h a) ++ queue (step h a) = received h ++ queue h ++ published [a].
Proof.
  destruct a as [sub|sub|ev|sub]; cbn -[received];
    rewrite ?app_nil_r; try reflexivity.
  destruct (is_connected h sub); cbn -[received]; [|reflexivity].
  destruct (queue h) as [|ev rest]; unfold received; cbn;
    rewrite flat_map_app; cbn; rewrite <- ?app_assoc; reflexivity.
Qed.

Lemma received_by_poll {Event} (h : Hub Event) sub ev rest :
  is_connected h sub = true -> queue h = ev :: rest ->
  queue (step h (Poll sub)) = rest /\
  received_by (step h (Poll sub)) sub = received_by h sub ++ [ev] /\
  (forall sub', sub' <> sub -> received_by (step h (Poll sub)) sub' = received_by h sub').
Proof.
  intros Hc Hq. cbn. rewrite Hc, Hq. cbn.
  unfold received_by. cbn. rewrite flat_map_app. cbn.
  rewrite Nat.eqb_refl. split; [reflexivity|]. split; [reflexivity|].
  intros sub' Hne. rewrite flat_map_app. cbn.
  destruct (Nat.eqb sub sub') eqn:E; [apply Nat.eqb_eq in E; congruence|].
  apply app_nil_r.
Qed.

Lemma drain {Event} sub (q : list Event) : forall (h : Hub Event),
  is_connected h sub = true -> queue h = q ->
  received_by (run h (repeat (Poll sub) (length q))) sub = received_by h sub ++ q /\
  queue (run h (repeat (Poll sub) (length q))) = [] /\
  is_connected (run h (repeat (Poll sub) (length q))) sub = true.
Proof.
  induction q as [|ev rest IH]; intros h Hc Hq.
  - cbn. rewrite app_nil_r. auto.
  - unfold run. cbn [repeat length fold_left]. fold (run (step h (Poll sub)) (repeat (Poll sub) (length rest))).
    destruct (received_by_poll h sub ev rest Hc Hq) as (Hq' & Hr & _).
    assert (Hc' : is_connected (step h (Poll sub)) sub = true)
      by (cbn; rewrite Hc, Hq; exact Hc).
    destruct (IH _ Hc' Hq') as (H1 & H2 & H3).
    rewrite H1, Hr, <- app_assoc. auto.
Qed.

Lemma no_poll_queued {Event} (acts : list (Action Event)) : forall (h : Hub Event),
  (forall sub, ~ In (Poll sub) acts) ->
  queue (run h acts) = queue h ++ published acts.
Proof.
  induction acts as [|a acts IH]; intros h Hp.
  - cbn. unfold published. cbn. rewrite app_nil_r. reflexivity.
  - unfold run. cbn [fold_left]. fold (run (step h a) acts).
    rewrite IH by (intros sub Hin; apply (Hp sub); right; exact Hin).
    destruct a as [sub|sub|ev|sub]; cbn; unfold published; cbn;
      rewrite ?app_assoc; try reflexivity.
    all: try (exfalso; eapply Hp; left; reflexivity).
    rewrite <- app_assoc. reflexivity.
Qed.

Lemma run_conserves {Event} (acts : list (Action Event)) : forall (h : Hub Event),
  received (run h acts) ++ queue (run h acts) = received h ++ queue h ++ published acts.
Proof.
  induction acts as [|a acts IH]; intros h; unfold run; cbn [fold_left].
  - unfold published. cbn. rewrite !app_nil_r. reflexivity.
  - fold (run (step h a) acts). rewrite IH, app_assoc, step_conserves. unfold published. cbn.
    rewrite !app_nil_r, <- !app_assoc. reflexivity.
Qed.

(** C9 (as the code has it): the hub is one shared FIFO queue, not a
    broadcast.
    - Over any schedule, the events received by all clients together,
      followed by those still queued, are exactly the published events in
      publish order: each event goes to at most one client.
    - A connected client that polls while [ev] is at the head of the queue
      takes [ev], and no other client receives anything in that step.
    - A client that connects later and polls once per queued event
      receives every event still queued, in order, and empties the queue.
    - While nobody polls, published events stay queued. *)
Theorem status_queue_single_delivery {Event} :
  (forall (h : Hub Event) (acts : list (Action Event)),
     received (run h acts) ++ queue (run h acts) = received h ++ queue h ++ published acts) /\
  (forall (h : Hub Event) (sub : nat) (ev : Event) (rest : list Event),
     is_connected h sub = true -> queue h = ev :: rest ->
     queue (step h (Poll sub)) = rest /\
     received_by (step h (Poll sub)) sub = received_by h sub ++ [ev] /\
     (forall sub', sub' <> sub -> received_by (step h (Poll sub)) sub' = received_by h sub')) /\
  (forall (h : Hub Event) (sub : nat),
     received_by (run h (Connect sub :: repeat (Poll sub) (length (queue h)))) sub
       = received_by h sub ++ queue h /\
     queue (run h (Connect sub :: repeat (Poll sub) (length (queue h)))) = []) /\
  (forall (h : Hub Event) (acts : list (Action Event)),
     (forall sub, ~ In (Poll sub) acts) ->
     queue (run h acts) = queue h ++ published acts).
Proof.
  split; [exact (fun h acts => run_conserves acts h)|].
  split; [exact received_by_poll|].
  split; [|exact (fun h acts Hp => no_poll_queued acts h Hp)].
  intros h sub. unfold run. cbn [fold_left].
  fold (run (step h (Connect sub)) (repeat (Poll sub) (length (queue h)))).
  assert (Hc : is_connected (step h (Connect sub)) sub = true)
    by (cbn; unfold is_connected; cbn; rewrite Nat.eqb_refl; reflexivity).
  destruct (drain sub (queue h) (step h (Connect sub)) Hc eq_refl) as (H1 & H2 & _).
  split; [exact H1|exact H2].
Qed.

Lemma status_queue_single_delivery_witness :
  is_connected (run (@empty_hub string) [Connect 1; Put "a"; Put "b"]) 1 = true /\
  queue (run (@empty_hub string) [Connect 1; Put "a"; Put "b"]) = ["a"; "b"] /\
  received_by (step (run (@empty_hub string) [Connect 1; Put "a"; Put "b"]) (Poll 1)) 1
    = received_by (run (@empty_hub string) [Connect 1; Put "a"; Put "b"]) 1 ++ ["a"].
Proof.
  split; [reflexivity|]. split; [reflexivity|].
  exact (proj1 (proj2 (proj1 (proj2 (@status_queue_single_delivery string))
    (run (@empty_hub string) [Connect 1; Put "a"; Put "b"]) 1 "a" ["b"] eq_refl eq_refl))).
Defined.

(** C9 fails as stated: with clients 1 and 2 connected when "ev" is
    published, only client 1 receives it; and an event published before
    client 3 connects is received by client 3. *)
Lemma status_queue_not_broadcast :
  received_by (run empty_hub [Connect 1; Connect 2; Put "ev"; Poll 1; Poll 2]) 2 = [] /\
  queue (run empty_hub [Connect 1; Connect 2; Put "ev"; Poll 1; Poll 2]) = [] /\
  received_by (run empty_hub [Put "ev"; Connect 3; Poll 3]) 3 = ["ev"].
Proof. split; [reflexivity|]. split; reflexivity. Qed.

End HubProofs.

(** ** Further properties of the translation client *)
Module TranslationExtraProofs.
Import Translation TranslationProofs.

Lemma key_nonempty_branch {A} (key : string) (a b : A) :
  key <> "" -> match key with "" => a | _ => b end = b.
Proof. destruct key; [congruence|reflexivity]. Qed.

(** An empty text has no chunk. *)
Lemma text_chunks_nil {Char} : text_chunks (@nil Char) = [].
Proof.
  unfold text_chunks, py_range, py_range_len. cbn [length].
  rewrite Nat.sub_0_r, Nat.add_0_l, Nat.div_small; [reflexivity|].
  pose proof CHUNK_SIZE_pos. lia.
Qed.

(** With a configured key and an empty text, [translate_text] returns [""]
    without issuing any request or sleeping. *)
Theorem translate_text_empty {Char} (tr : nat -> list Char -> Outcome Char)
    (key : string) (st : St Char) :
  key <> "" -> translate_text tr (Some key) [] st = (Ok [], st).
Proof.
  intros Hkey. unfold translate_text. rewrite text_chunks_nil. cbn [chunk_loop concat].
  destruct key; [congruence|reflexivity].
Qed.

Lemma translate_text_empty_witness :
  translate_text (fun (_ : nat) (c : list nat) => Success c) (Some "k") [] (mkSt 0 [])
  = (Ok [], mkSt 0 []).
Proof. apply translate_text_empty. discriminate. Defined.

(** The chunking of [translate_text]: there are ceil(len / 4800) chunks,
    none of them empty, and every chunk but the last holds exactly
    [CHUNK_SIZE] characters. *)
Theorem text_chunks_shape {Char} (text : list Char) :
  length (text_chunks text) = Nat.div (length text + CHUNK_SIZE - 1) CHUNK_SIZE /\
  forall i c, nth_error (text_chunks text) i = Some c ->
    0 < length c /\ (S i < length (text_chunks text) -> length c = CHUNK_SIZE).
Proof.
  pose proof CHUNK_SIZE_pos as Hpos.
  unfold text_chunks, py_range, py_range_len.
  rewrite !length_map, length_seq, Nat.sub_0_r.
  split; [reflexivity|].
  intros i c H. rewrite !nth_error_map, nth_error_seq in H.
  set (q := Nat.div (length text + CHUNK_SIZE - 1) CHUNK_SIZE) in *.
  destruct (Nat.ltb i q) eqn:Hi; [|discriminate].
  apply Nat.ltb_lt in Hi. cbn in H. injection H as <-.
  unfold py_slice. rewrite length_take, length_drop.
  pose proof (Nat.div_mod (length text + CHUNK_SIZE - 1) CHUNK_SIZE ltac:(lia)) as Hd.
  pose proof (Nat.mod_upper_bound (length text + CHUNK_SIZE - 1) CHUNK_SIZE ltac:(lia)) as Hm.
  fold q in Hd.
  set (r := (length text + CHUNK_SIZE - 1) mod CHUNK_SIZE) in *.
  assert (Hlt : i * CHUNK_SIZE < length text) by nia.
  split; [lia|].
  intros Hsi. assert (S i * CHUNK_SIZE < length text) by nia. lia.
Qed.

Lemma chunk_loop_success_state {Char} (tr : nat -> list Char -> Outcome Char) f :
  (forall n c, tr n c = Success (f c)) ->
  forall chunks acc st,
    chunk_loop tr chunks acc st
    = (Ok (acc ++ map f chunks),
       mkSt (posts st + length chunks)
            (log st ++ flat_map (fun c => [Post c; Sleep 1]) chunks)).
Proof.
  intros Htr chunks. induction chunks as [|c cs IH]; intros acc st;
    cbn [chunk_loop].
  - rewrite !app_nil_r, Nat.add_0_r. destruct st; reflexivity.
  - rewrite py_range_retries. cbn [retry_loop]. rewrite Htr, IH.
    cbn. rewrite <- !app_assoc. rewrite Nat.add_succ_r. reflexivity.
Qed.

(** When every request succeeds, each chunk is posted exactly once, in
    order, and each post is followed by the 1s pause. *)
Theorem translate_text_success_log {Char} (tr : nat -> list Char -> Outcome Char)
    (f : list Char -> list Char) (key : string) (text : list Char) (st : St Char) :
  key <> "" ->
  (forall n c, tr n c = Success (f c)) ->
  snd (translate_text tr (Some key) text st)
  = mkSt (posts st + length (text_chunks text))
         (log st ++ flat_map (fun c => [Post c; Sleep 1]) (text_chunks text)).
Proof.
  intros Hkey Htr. unfold translate_text.
  rewrite (chunk_loop_success_state tr f Htr). rewrite key_nonempty_branch by exact Hkey.
  reflexivity.
Qed.

Lemma translate_text_success_log_witness :
  snd (translate_text (fun (_ : nat) (c : list nat) => Success c) (Some "k")
         [1; 2] (mkSt 0 []))
  = mkSt (0 + length (text_chunks [1; 2]))
         ([] ++ flat_map (fun c => [Post c; Sleep 1]) (text_chunks [1; 2])).
Proof.
  apply (translate_text_success_log _ (fun c => c)); [discriminate|reflexivity].
Defined.

Lemma chunk_loop_retry_once {Char} (tr : nat -> list Char -> Outcome Char) f :
  (forall n c, Nat.even n = true -> tr n c = StatusError 429) ->
  (forall n c, Nat.even n = false -> tr n c = Success (f c)) ->
  forall chunks acc st, Nat.even (posts st) = true ->
    chunk_loop tr chunks acc st
    = (Ok (acc ++ map f chunks),
       mkSt (posts st + 2 * length chunks)
            (log st ++ flat_map (fun c => [Post c; Sleep 2; Post c; Sleep 1]) chunks)).
Proof.
  intros Hev Hodd chunks. induction chunks as [|c cs IH]; intros acc st Hp;
    cbn [chunk_loop].
  - rewrite !app_nil_r, Nat.add_0_r. destruct st; reflexivity.
  - rewrite py_range_retries. cbn [retry_loop]. rewrite Hev by exact Hp.
    cbn [Nat.eqb Nat.ltb Nat.leb MAX_RETRIES Nat.sub andb].
    unfold post, sleep. cbn [posts log].
    rewrite Hodd by (rewrite Nat.even_succ, <- Nat.negb_even, Hp; reflexivity).
    rewrite IH.
    + cbn. rewrite <- !app_assoc. f_equal. f_equal. lia.
    + cbn. rewrite Hp. reflexivity.
Qed.

(** The retry budget belongs to each chunk: if the first request for every
    chunk gets HTTP 429 and the retry succeeds, the whole text is
    translated, with two posts per chunk separated by the 2s back-off. *)
Theorem translate_text_retry_per_chunk {Char} (tr : nat -> list Char -> Outcome Char)
    (f : list Char -> list Char) (key : string) (text : list Char) (st : St Char) :
  key <> "" ->
  (forall n c, Nat.even n = true -> tr n c = StatusError 429) ->
  (forall n c, Nat.even n = false -> tr n c = Success (f c)) ->
  Nat.even (posts st) = true ->
  translate_text tr (Some key) text st
  = (Ok (concat (map f (text_chunks text))),
     mkSt (posts st + 2 * length (text_chunks text))
          (log st ++ flat_map (fun c => [Post c; Sleep 2; Post c; Sleep 1])
                               (text_chunks text))).
Proof.
  intros Hkey Hev Hodd Hp. unfold translate_text.
  rewrite (chunk_loop_retry_once tr f Hev Hodd _ _ _ Hp).
  rewrite key_nonempty_branch by exact Hkey. reflexivity.
Qed.

Lemma translate_text_retry_per_chunk_witness :
  translate_text (fun (n : nat) (c : list nat) =>
                    if Nat.even n then StatusError 429 else Success c)
    (Some "k") [1; 2] (mkSt 0 [])
  = (Ok (concat (map (fun c => c) (text_chunks [1; 2]))),
     mkSt (0 + 2 * length (text_chunks [1; 2]))
          ([] ++ flat_map (fun c => [Post c; Sleep 2; Post c; Sleep 1])
                          (text_chunks [1; 2]))).
Proof.
  apply translate_text_retry_per_chunk.
  - discriminate.
  - intros n c H. rewrite H. reflexivity.
  - intros n c H. rewrite H. reflexivity.
  - reflexivity.
Defined.

End TranslationExtraProofs.

(** ** Further properties of the upload endpoint and the per-file job *)
Module BackendExtraProofs.
Import Backend BackendProofs.

(** An upload whose lower-cased extension is not allowed gets an error
    entry and no event. Before answering, the handler removes whatever the
    uploads directory held at [uploads/<filename>]; so an upload named
    after a derived artifact (for instance [x_metadata.json]) deletes that
    artifact. *)
Theorem process_single_file_rejects_extension clamscan run_extractor translate_text
    process_file_metadata open_error (file : UploadFile) (s : State) :
  existsb (String.eqb (py_lower (splitext (up_filename file)).2)) ALLOWED_EXTENSIONS
    = false ->
  process_single_file clamscan run_extractor translate_text process_file_metadata open_error file s
  = (Ok (mkResult (up_filename file) "error"
           (Some ("Failed to process file " +:+ up_filename file +:+ ": " +:+
                  ("File type not allowed for " +:+ up_filename file)))),
     mkState (delete (os_path_join UPLOADS_DIR (up_filename file)) (store s)) (trace s)).
Proof.
  intros Hext. unfold process_single_file. mrun. rewrite Hext. cbn.
  destruct (store s !! os_path_join UPLOADS_DIR (up_filename file)) eqn:E; cbn;
    [reflexivity|].
  rewrite delete_id by exact E. destruct s; reflexivity.
Qed.

Lemma process_single_file_rejects_extension_witness :
  existsb (String.eqb (py_lower (splitext "paper_metadata.json").2)) ALLOWED_EXTENSIONS
    = false /\
  process_single_file (fun _ => Completed 0 "") (fun _ _ => Ok "hola")
    (fun t => Ok t) (fun _ _ _ => Ok ∅) (fun _ => None) (mkUpload "paper_metadata.json" 2)
    (mkState {[ "uploads/paper_metadata.json" := JsonFile ∅ ]} [])
  = (Ok (mkResult "paper_metadata.json" "error"
           (Some ("Failed to process file " +:+ "paper_metadata.json" +:+ ": " +:+
                  ("File type not allowed for " +:+ "paper_metadata.json")))),
     mkState (delete (os_path_join UPLOADS_DIR "paper_metadata.json")
                {[ "uploads/paper_metadata.json" := JsonFile ∅ ]}) []).
Proof.
  split; [reflexivity|].
  exact (process_single_file_rejects_extension (fun _ => Completed 0 "")
    (fun _ _ => Ok "hola") (fun t => Ok t) (fun _ _ _ => Ok ∅) (fun _ => None)
    (mkUpload "paper_metadata.json" 2)
    (mkState {[ "uploads/paper_metadata.json" := JsonFile ∅ ]} []) eq_refl).
Defined.

(** An upload larger than [MAX_FILE_SIZE] whose path [open] accepts is
    written, measured, removed again and reported as an error entry; no
    event is published and nothing is left at its path. *)
Theorem process_single_file_rejects_oversize clamscan run_extractor translate_text
    process_file_metadata open_error (file : UploadFile) (s : State) :
  existsb (String.eqb (py_lower (splitext (up_filename file)).2)) ALLOWED_EXTENSIONS
    = true ->
  open_error (os_path_join UPLOADS_DIR (up_filename file)) = None ->
  N.ltb MAX_FILE_SIZE (up_size file) = true ->
  process_single_file clamscan run_extractor translate_text process_file_metadata open_error file s
  = (Ok (mkResult (up_filename file) "error"
           (Some ("Failed to process file " +:+ up_filename file +:+ ": " +:+
                  ("File size exceeds limit for " +:+ up_filename file)))),
     mkState (delete (os_path_join UPLOADS_DIR (up_filename file)) (store s)) (trace s)).
Proof.
  intros Hext Hopen Hsize. unfold process_single_file. mrun. unfold os_path_getsize.
  rewrite Hext. cbn. rewrite Hopen. cbn. rewrite lookup_insert_eq. cbn. rewrite Hsize. cbn.
  rewrite lookup_insert_eq. cbn. rewrite lookup_delete_eq. cbn.
  rewrite delete_insert_eq. reflexivity.
Qed.

Lemma process_single_file_rejects_oversize_witness :
  existsb (String.eqb (py_lower (splitext "scan.PDF").2)) ALLOWED_EXTENSIONS = true /\
  name_too_long (os_path_join UPLOADS_DIR "scan.PDF") = None /\
  N.ltb MAX_FILE_SIZE 60000000 = true /\
  process_single_file (fun _ => Completed 0 "") (fun _ _ => Ok "hola")
    (fun t => Ok t) (fun _ _ _ => Ok ∅) name_too_long (mkUpload "scan.PDF" 60000000)
    (mkState ∅ [])
  = (Ok (mkResult "scan.PDF" "error"
           (Some ("Failed to process file " +:+ "scan.PDF" +:+ ": " +:+
                  ("File size exceeds limit for " +:+ "scan.PDF")))),
     mkState (delete (os_path_join UPLOADS_DIR "scan.PDF") ∅) []).
Proof.
  split; [reflexivity|]. split; [reflexivity|]. split; [reflexivity|].
  exact (process_single_file_rejects_oversize (fun _ => Completed 0 "")
    (fun _ _ => Ok "hola") (fun t => Ok t) (fun _ _ _ => Ok ∅) name_too_long
    (mkUpload "scan.PDF" 60000000) (mkState ∅ []) eq_refl eq_refl eq_refl).
Defined.

(** An upload that passes validation and whose path [open] accepts is
    stored under [uploads/<filename>] and handed to the background job
    with its extension lower-cased; the job never raises, so the handler's
    cleanup does not run. *)
Theorem process_single_file_accepts clamscan run_extractor translate_text
    process_file_metadata open_error (file : UploadFile) (s : State) :
  existsb (String.eqb (py_lower (splitext (up_filename file)).2)) ALLOWED_EXTENSIONS
    = true ->
  open_error (os_path_join UPLOADS_DIR (up_filename file)) = None ->
  N.leb (up_size file) MAX_FILE_SIZE = true ->
  process_single_file clamscan run_extractor translate_text process_file_metadata open_error file s
  = process_file_in_background clamscan run_extractor translate_text process_file_metadata open_error
      (up_filename file) (py_lower (splitext (up_filename file)).2)
      (os_path_join UPLOADS_DIR (up_filename file))
      (mkState (<[os_path_join UPLOADS_DIR (up_filename file) :=
                  OriginalBytes (up_size file)]> (store s)) (trace s)).
Proof.
  intros Hext Hopen Hsize. unfold process_single_file. mrun. unfold os_path_getsize.
  rewrite Hext. cbn. rewrite Hopen. cbn. rewrite lookup_insert_eq. cbn.
  assert (Hlt : N.ltb MAX_FILE_SIZE (up_size file) = false)
    by (apply N.ltb_ge, N.leb_le, Hsize).
  rewrite Hlt. cbn.
  match goal with
  | |- context [process_file_in_background ?a ?b ?c ?d ?oe ?f ?x ?p ?st] =>
      destruct (process_file_in_background_terminal a b c d oe f x p st)
        as (r & T & Hr & _);
      destruct (process_file_in_background a b c d oe f x p st) as [[r'|e] st'] eqn:E
  end; cbn in Hr; [reflexivity|discriminate].
Qed.

Lemma process_single_file_accepts_witness :
  existsb (String.eqb (py_lower (splitext "Paper.PDF").2)) ALLOWED_EXTENSIONS = true /\
  name_too_long (os_path_join UPLOADS_DIR "Paper.PDF") = None /\
  N.leb 5 MAX_FILE_SIZE = true /\
  process_single_file (fun _ => Completed 0 "") (fun _ _ => Ok "hola")
    (fun t => Ok t) (fun _ _ _ => Ok ∅) name_too_long (mkUpload "Paper.PDF" 5) (mkState ∅ [])
  = process_file_in_background (fun _ => Completed 0 "") (fun _ _ => Ok "hola")
      (fun t => Ok t) (fun _ _ _ => Ok ∅) name_too_long "Paper.PDF" (py_lower (splitext "Paper.PDF").2)
      (os_path_join UPLOADS_DIR "Paper.PDF")
      (mkState (<[os_path_join UPLOADS_DIR "Paper.PDF" := OriginalBytes 5]> ∅) []).
Proof.
  split; [reflexivity|]. split; [reflexivity|]. split; [reflexivity|].
  exact (process_single_file_accepts (fun _ => Completed 0 "")
    (fun _ _ => Ok "hola") (fun t => Ok t) (fun _ _ _ => Ok ∅) name_too_long
    (mkUpload "Paper.PDF" 5) (mkState ∅ []) eq_refl eq_refl eq_refl).
Defined.

(** An upload with an allowed extension whose path [open] refuses (a
    subdirectory of [uploads] that does not exist, a name over the length
    limit) is reported as an error entry carrying [str(e)]; no event is
    published and the background job never starts. *)
Theorem process_single_file_save_fails clamscan run_extractor translate_text
    process_file_metadata open_error (file : UploadFile) (s : State) e :
  existsb (String.eqb (py_lower (splitext (up_filename file)).2)) ALLOWED_EXTENSIONS
    = true ->
  open_error (os_path_join UPLOADS_DIR (up_filename file)) = Some e ->
  process_single_file clamscan run_extractor translate_text process_file_metadata open_error file s
  = (Ok (mkResult (up_filename file) "error"
           (Some ("Failed to process file " +:+ up_filename file +:+ ": " +:+
                  match e with HTTPException _ d => d | _ => exn_str e end))),
     mkState (delete (os_path_join UPLOADS_DIR (up_filename file)) (store s)) (trace s)).
Proof.
  intros Hext Hopen. unfold process_single_file. mrun. rewrite Hext. cbn.
  rewrite Hopen. cbn.
  destruct (store s !! os_path_join UPLOADS_DIR (up_filename file)) eqn:E; cbn;
    [reflexivity|].
  rewrite delete_id by exact E. destruct s; reflexivity.
Qed.

Lemma process_single_file_save_fails_witness :
  existsb (String.eqb (py_lower (splitext "sub/x.txt").2)) ALLOWED_EXTENSIONS = true /\
  process_single_file (fun _ => Completed 0 "") (fun _ _ => Ok "hola")
    (fun t => Ok t) (fun _ _ _ => Ok ∅)
    (fun p => if String.eqb p "uploads/sub/x.txt"
              then Some (FileNotFoundError
                           "[Errno 2] No such file or directory: 'uploads/sub/x.txt'")
              else None)
    (mkUpload "sub/x.txt" 5) (mkState ∅ [])
  = (Ok (mkResult "sub/x.txt" "error"
           (Some ("Failed to process file " +:+ "sub/x.txt" +:+ ": " +:+
                  "[Errno 2] No such file or directory: 'uploads/sub/x.txt'"))),
     mkState (delete (os_path_join UPLOADS_DIR "sub/x.txt") ∅) []).
Proof.
  split; [reflexivity|].
  exact (process_single_file_save_fails (fun _ => Completed 0 "")
    (fun _ _ => Ok "hola") (fun t => Ok t) (fun _ _ _ => Ok ∅)
    (fun p => if String.eqb p "uploads/sub/x.txt"
              then Some (FileNotFoundError
                           "[Errno 2] No such file or directory: 'uploads/sub/x.txt'")
              else None)
    (mkUpload "sub/x.txt" 5) (mkState ∅ [])
    (FileNotFoundError "[Errno 2] No such file or directory: 'uploads/sub/x.txt'")
    eq_refl eq_refl).
Defined.

(** The counts of the upload response: [successful] is the number of
    "success" entries, [successful + failed] is the number of uploaded
    files, and the message announces every file, whatever happened. *)
Theorem upload_files_counts clamscan run_extractor translate_text
    process_file_metadata open_error (files : list UploadFile) (s : State) :
  files <> [] ->
  exists resp,
    fst (upload_files clamscan run_extractor translate_text process_file_metadata open_error
           files s) = Ok resp /\
    message resp = "Started processing " +:+ pretty (length files) +:+ " file(s)" /\
    successful resp = length (filter (fun r => String.eqb (r_status r) "success")
                                     (details resp)) /\
    successful resp + failed resp = length files /\
    length (details resp) = length files.
Proof.
  intros Hne. unfold upload_files.
  destruct files as [|f fs] eqn:Ef; [congruence|]. rewrite <- Ef.
  mrun.
  destruct (gather_terminal clamscan run_extractor translate_text
              process_file_metadata open_error files s) as (rs & T & Hrs & _ & Hlen & _).
  destruct (gather clamscan run_extractor translate_text process_file_metadata open_error files s)
    as [rs' s1] eqn:E. cbn in Hrs. subst rs'.
  eexists. cbn. split; [reflexivity|].
  split; [reflexivity|]. split; [reflexivity|].
  split; [|exact Hlen].
  pose proof (length_filter (fun r : FileResult => String.eqb (r_status r) "success") rs).
  cbn [successful failed]. lia.
Qed.

Lemma upload_files_counts_witness :
  exists resp,
    fst (upload_files (fun _ => Completed 0 "") (fun _ _ => Ok "hola")
           (fun t => Ok t) (fun _ _ _ => Ok ∅) (fun _ => None)
           [mkUpload "a.txt" 5; mkUpload "b.exe" 5] (mkState ∅ [])) = Ok resp /\
    message resp = "Started processing " +:+ pretty 2 +:+ " file(s)" /\
    successful resp = length (filter (fun r => String.eqb (r_status r) "success")
                                     (details resp)) /\
    successful resp + failed resp = 2 /\
    length (details resp) = 2.
Proof.
  exact (upload_files_counts (fun _ => Completed 0 "") (fun _ _ => Ok "hola")
    (fun t => Ok t) (fun _ _ _ => Ok ∅) (fun _ => None) [mkUpload "a.txt" 5; mkUpload "b.exe" 5]
    (mkState ∅ []) ltac:(discriminate)).
Defined.

(** Whatever non-zero code [clamscan] returns for a stored file (1 for
    malware, anything else for a scanner failure), the job removes the
    file and ends in [Error] with the generic security-processing detail;
    no later stage runs. *)
Theorem scan_rejection_removes_file clamscan run_extractor translate_text
    process_file_metadata open_error (filename file_ext file_path : string) (s : State)
    c rc err :
  store s !! file_path = Some c ->
  clamscan file_path = Completed rc err ->
  rc <> 0%Z ->
  process_file_in_background clamscan run_extractor translate_text
    process_file_metadata open_error filename file_ext file_path s
  = (Ok (mkResult filename "error"
           (Some "An unexpected server error occurred during file security processing.")),
     mkState (delete file_path (store s))
       (trace s ++ [Published (mkEvent filename "Scanning for malware..." None);
                    Published (mkEvent filename "Error"
                      (Some "An unexpected server error occurred during file security processing."))])).
Proof.
  intros Hc Hscan Hrc. unfold process_file_in_background, scan_file. mrun.
  rewrite Hscan.
  assert (H0 : Z.eqb rc 0 = false) by (apply Z.eqb_neq; exact Hrc).
  destruct (Z.eqb rc 1); cbn; [|rewrite H0; cbn];
    rewrite Hc; cbn; repeat (rewrite lookup_delete_eq; cbn);
    rewrite <- ?app_assoc; reflexivity.
Qed.

Lemma scan_rejection_removes_file_witness :
  process_file_in_background (fun _ => Completed 2 "cannot open database")
    (fun _ _ => Ok "hola") (fun t => Ok t) (fun _ _ _ => Ok ∅) (fun _ => None)
    "paper.txt" ".txt" "uploads/paper.txt"
    (mkState {[ "uploads/paper.txt" := OriginalBytes 5 ]} [])
  = (Ok (mkResult "paper.txt" "error"
           (Some "An unexpected server error occurred during file security processing.")),
     mkState (delete "uploads/paper.txt" {[ "uploads/paper.txt" := OriginalBytes 5 ]})
       ([] ++ [Published (mkEvent "paper.txt" "Scanning for malware..." None);
               Published (mkEvent "paper.txt" "Error"
                 (Some "An unexpected server error occurred during file security processing."))])).
Proof.
  exact (scan_rejection_removes_file (fun _ => Completed 2 "cannot open database")
    (fun _ _ => Ok "hola") (fun t => Ok t) (fun _ _ _ => Ok ∅) (fun _ => None)
    "paper.txt" ".txt" "uploads/paper.txt"
    (mkState {[ "uploads/paper.txt" := OriginalBytes 5 ]} []) (OriginalBytes 5)
    2%Z "cannot open database" eq_refl eq_refl ltac:(discriminate)).
Defined.

(** Without the [clamscan] binary the scan is skipped: the job runs
    exactly as it does on a clean verdict. *)
Theorem scan_skipped_without_clamscan clamscan clamscan_ok run_extractor
    translate_text process_file_metadata open_error (filename file_ext file_path : string)
    (s : State) err :
  clamscan file_path = BinaryNotFound ->
  clamscan_ok file_path = Completed 0 err ->
  process_file_in_background clamscan run_extractor translate_text
    process_file_metadata open_error filename file_ext file_path s
  = process_file_in_background clamscan_ok run_extractor translate_text
      process_file_metadata open_error filename file_ext file_path s.
Proof.
  intros Hnf Hok. unfold process_file_in_background. mrun.
  rewrite (scan_file_pass clamscan) by (right; exact Hnf).
  rewrite (scan_file_pass clamscan_ok) by (left; exists err; exact Hok).
  reflexivity.
Qed.

Lemma scan_skipped_without_clamscan_witness :
  process_file_in_background (fun _ => BinaryNotFound) (fun _ _ => Ok "hola")
    (fun t => Ok t) (fun _ _ _ => Ok ∅) (fun _ => None) "paper.txt" ".txt" "uploads/paper.txt"
    (mkState ∅ [])
  = process_file_in_background (fun _ => Completed 0 "") (fun _ _ => Ok "hola")
      (fun t => Ok t) (fun _ _ _ => Ok ∅) (fun _ => None) "paper.txt" ".txt" "uploads/paper.txt"
      (mkState ∅ []).
Proof.
  exact (scan_skipped_without_clamscan (fun _ => BinaryNotFound)
    (fun _ => Completed 0 "") (fun _ _ => Ok "hola") (fun t => Ok t)
    (fun _ _ _ => Ok ∅) (fun _ => None) "paper.txt" ".txt" "uploads/paper.txt" (mkState ∅ []) ""
    eq_refl eq_refl).
Defined.

(** The successful run, when [open] accepts the paths of both artifacts:
    the job publishes its five statuses in order, writes
    [{base}_metadata.json] with the record derived from the translated
    text (the minimal record when that is empty), writes
    [{base}_translated.txt] unless the translation is empty, and keeps the
    original. *)
Theorem pipeline_success_writes_artifacts clamscan run_extractor translate_text
    process_file_metadata open_error (filename file_ext file_path : string) (s : State)
    x original_text translated_text md :
  scan_passes clamscan file_path ->
  dict_get text_extractors file_ext = Some x ->
  run_extractor x file_path = Ok original_text ->
  py_str_blank original_text = false ->
  translate_text original_text = Ok translated_text ->
  process_file_metadata file_path file_ext translated_text = Ok md ->
  open_error (metadata_path_of file_path) = None ->
  open_error (translated_path_of file_path) = None ->
  let with_md :=
    <[metadata_path_of file_path :=
        JsonFile (if py_dict_truthy md then md else minimal_metadata (base_of file_path))]>
      (store s) in
  process_file_in_background clamscan run_extractor translate_text
    process_file_metadata open_error filename file_ext file_path s
  = (Ok (mkResult filename "success" None),
     mkState (if String.eqb translated_text "" then with_md
              else <[translated_path_of file_path := TextFile translated_text]> with_md)
       (trace s ++ [Published (mkEvent filename "Scanning for malware..." None);
                    Published (mkEvent filename "Processing..." None);
                    Published (mkEvent filename "Translating..." None);
                    Published (mkEvent filename "Extracting Metadata..." None);
                    Published (mkEvent filename "Complete"
                                 (Some "Processing finished successfully."))])).
Proof.
  intros Hscan Hx Hrun Hblank Htr Hmd Hom Hot with_md. subst with_md.
  unfold process_file_in_background, process_and_translate_file,
    process_and_save_metadata.
  mrun. rewrite scan_file_pass by exact Hscan.
  rewrite Hx, Hrun, Hblank, Htr, Hmd. cbn. rewrite Hom. cbn.
  destruct (String.eqb translated_text ""); cbn; [|rewrite Hot; cbn];
    rewrite <- !app_assoc; reflexivity.
Qed.

Lemma pipeline_success_writes_artifacts_witness :
  name_too_long (metadata_path_of "uploads/paper.txt") = None /\
  name_too_long (translated_path_of "uploads/paper.txt") = None /\
  process_file_in_background (fun _ => Completed 0 "") (fun _ _ => Ok "hola")
    (fun _ => Ok "hello") (fun _ _ _ => Ok ∅) name_too_long "paper.txt" ".txt"
    "uploads/paper.txt" (mkState ∅ [])
  = (Ok (mkResult "paper.txt" "success" None),
     mkState (if String.eqb "hello" "" then
                <[metadata_path_of "uploads/paper.txt" :=
                   JsonFile (if py_dict_truthy ∅ then ∅
                             else minimal_metadata (base_of "uploads/paper.txt"))]> ∅
              else <[translated_path_of "uploads/paper.txt" := TextFile "hello"]>
                (<[metadata_path_of "uploads/paper.txt" :=
                   JsonFile (if py_dict_truthy ∅ then ∅
                             else minimal_metadata (base_of "uploads/paper.txt"))]> ∅))
       ([] ++ [Published (mkEvent "paper.txt" "Scanning for malware..." None);
               Published (mkEvent "paper.txt" "Processing..." None);
               Published (mkEvent "paper.txt" "Translating..." None);
               Published (mkEvent "paper.txt" "Extracting Metadata..." None);
               Published (mkEvent "paper.txt" "Complete"
                            (Some "Processing finished successfully."))])).
Proof.
  split; [vm_compute; reflexivity|]. split; [vm_compute; reflexivity|].
  exact (pipeline_success_writes_artifacts (fun _ => Completed 0 "")
    (fun _ _ => Ok "hola") (fun _ => Ok "hello") (fun _ _ _ => Ok ∅) name_too_long
    "paper.txt" ".txt" "uploads/paper.txt" (mkState ∅ []) extract_text_from_txt
    "hola" "hello" ∅ (or_introl (ex_intro _ "" eq_refl)) eq_refl eq_refl eq_refl
    eq_refl eq_refl eq_refl eq_refl).
Defined.

(** Whatever [open] does with the artifact paths and whatever the
    metadata deriver returns, once translation succeeds the job returns a
    success entry after the same five statuses: a failed artifact write is
    printed and swallowed ([except save_error] for the metadata fallback,
    the [except] of [process_and_translate_file] for the rest). *)
Theorem artifact_write_failure_completes clamscan run_extractor translate_text
    process_file_metadata open_error (filename file_ext file_path : string) (s : State)
    x original_text translated_text :
  scan_passes clamscan file_path ->
  dict_get text_extractors file_ext = Some x ->
  run_extractor x file_path = Ok original_text ->
  py_str_blank original_text = false ->
  translate_text original_text = Ok translated_text ->
  let res := process_file_in_background clamscan run_extractor translate_text
               process_file_metadata open_error filename file_ext file_path s in
  fst res = Ok (mkResult filename "success" None) /\
  trace (snd res) =
    trace s ++ [Published (mkEvent filename "Scanning for malware..." None);
                Published (mkEvent filename "Processing..." None);
                Published (mkEvent filename "Translating..." None);
                Published (mkEvent filename "Extracting Metadata..." None);
                Published (mkEvent filename "Complete"
                             (Some "Processing finished successfully."))].
Proof.
  intros Hscan Hx Hrun Hblank Htr res. subst res.
  unfold process_file_in_background, process_and_translate_file,
    process_and_save_metadata.
  mrun. rewrite scan_file_pass by exact Hscan.
  rewrite Hx, Hrun, Hblank, Htr. cbn.
  destruct (process_file_metadata file_path file_ext translated_text); cbn;
    repeat (destruct (open_error _); cbn);
    try destruct (negb (String.eqb translated_text "")); cbn;
    repeat (destruct (open_error _); cbn);
    (split; [reflexivity|rewrite <- !app_assoc; reflexivity]).
Qed.

Lemma artifact_write_failure_completes_witness :
  fst (process_file_in_background (fun _ => Completed 0 "") (fun _ _ => Ok "hola")
         (fun _ => Ok "hello") (fun _ _ _ => Ok ∅) name_too_long long_name ".txt"
         (os_path_join UPLOADS_DIR long_name)
         (mkState {[ os_path_join UPLOADS_DIR long_name := OriginalBytes 5 ]} []))
  = Ok (mkResult long_name "success" None).
Proof.
  exact (proj1 (artifact_write_failure_completes (fun _ => Completed 0 "")
    (fun _ _ => Ok "hola") (fun _ => Ok "hello") (fun _ _ _ => Ok ∅) name_too_long
    long_name ".txt" (os_path_join UPLOADS_DIR long_name)
    (mkState {[ os_path_join UPLOADS_DIR long_name := OriginalBytes 5 ]} [])
    extract_text_from_txt "hola" "hello" (or_introl (ex_intro _ "" eq_refl))
    eq_refl eq_refl eq_refl eq_refl)).
Defined.

(** An exception raised by the text extractor is printed and swallowed:
    the job publishes [Complete] after [Processing...], returns a success
    entry and writes nothing. *)
Theorem extraction_failure_completes clamscan run_extractor translate_text
    process_file_metadata open_error (filename file_ext file_path : string) (s : State) x e :
  scan_passes clamscan file_path ->
  dict_get text_extractors file_ext = Some x ->
  run_extractor x file_path = Exc e ->
  process_file_in_background clamscan run_extractor translate_text
    process_file_metadata open_error filename file_ext file_path s
  = (Ok (mkResult filename "success" None),
     mkState (store s)
       (trace s ++ [Published (mkEvent filename "Scanning for malware..." None);
                    Published (mkEvent filename "Processing..." None);
                    Published (mkEvent filename "Complete"
                                 (Some "Processing finished successfully."))])).
Proof.
  intros Hscan Hx Hrun.
  unfold process_file_in_background, process_and_translate_file.
  mrun. rewrite scan_file_pass by exact Hscan.
  rewrite Hx, Hrun. cbn. rewrite <- !app_assoc. reflexivity.
Qed.

Lemma extraction_failure_completes_witness :
  process_file_in_background (fun _ => Completed 0 "")
    (fun _ _ => Exc (Exception "EOF marker not found")) (fun t => Ok t)
    (fun _ _ _ => Ok ∅) (fun _ => None) "paper.pdf" ".pdf" "uploads/paper.pdf" (mkState ∅ [])
  = (Ok (mkResult "paper.pdf" "success" None),
     mkState ∅
       ([] ++ [Published (mkEvent "paper.pdf" "Scanning for malware..." None);
               Published (mkEvent "paper.pdf" "Processing..." None);
               Published (mkEvent "paper.pdf" "Complete"
                            (Some "Processing finished successfully."))])).
Proof.
  exact (extraction_failure_completes (fun _ => Completed 0 "")
    (fun _ _ => Exc (Exception "EOF marker not found")) (fun t => Ok t)
    (fun _ _ _ => Ok ∅) (fun _ => None) "paper.pdf" ".pdf" "uploads/paper.pdf" (mkState ∅ [])
    extract_text_from_pdf (Exception "EOF marker not found")
    (or_introl (ex_intro _ "" eq_refl)) eq_refl eq_refl).
Defined.

End BackendExtraProofs.

(** ** The [/api/files/] listing *)
Module ListingProofs.
Import Backend Listing BackendProofs.

(** The branch of the first loop that records an original file. *)
Definition is_original (x : string) : bool :=
  negb (py_startswith_dot x) && negb (py_endswith x "_translated.txt") &&
  negb (py_endswith x "_metadata.json").

Lemma string_of_list_ascii_app (a b : list ascii) :
  string_of_list_ascii (a ++ b) = string_of_list_ascii a +:+ string_of_list_ascii b.
Proof. induction a as [|c a IH]; [reflexivity|]. cbn. rewrite IH. reflexivity. Qed.

Lemma list_ascii_of_string_app (a b : string) :
  list_ascii_of_string (a +:+ b) = list_ascii_of_string a ++ list_ascii_of_string b.
Proof.
  induction a as [|c a IH]; [reflexivity|].
  rewrite string_app_cons. cbn. rewrite IH. reflexivity.
Qed.

Lemma string_length_ascii (s : string) : String.length s = length (list_ascii_of_string s).
Proof. induction s as [|c s IH]; cbn; [reflexivity|]. rewrite IH. reflexivity. Qed.

Lemma string_app_nil (s : string) : s +:+ "" = s.
Proof. induction s as [|c s IH]; [reflexivity|]. rewrite string_app_cons, IH. reflexivity. Qed.

(** [x.endswith(suffix)] and [x[:-len(suffix)] == b] hold together exactly
    when [x] is [b + suffix]. *)
Lemma endswith_drop_iff (x suffix b : string) :
  py_endswith x suffix = true /\ drop_suffix x suffix = b <-> x = b +:+ suffix.
Proof.
  unfold py_endswith, drop_suffix. rewrite string_length_ascii. split.
  - intros [H1 H2]. apply andb_true_iff in H1 as [_ Hd].
    apply bool_decide_eq_true in Hd.
    transitivity (string_of_list_ascii (list_ascii_of_string x));
      [symmetry; apply string_of_list_ascii_of_string|].
    rewrite <- (firstn_skipn (length (list_ascii_of_string x)
                              - length (list_ascii_of_string suffix))
                             (list_ascii_of_string x)).
    rewrite string_of_list_ascii_app, Hd, H2, string_of_list_ascii_of_string.
    reflexivity.
  - intros ->. rewrite list_ascii_of_string_app, length_app, Nat.add_sub. split.
    + apply andb_true_iff. split; [apply Nat.leb_le; lia|].
      apply bool_decide_eq_true, drop_app_length.
    + rewrite take_app_length. apply string_of_list_ascii_of_string.
Qed.

Lemma split_first_spec c l a b : split_first c l = Some (a, b) -> l = a ++ c :: b.
Proof.
  revert a b. induction l as [|x xs IH]; intros a b H; cbn in H; [discriminate|].
  destruct (Ascii.eqb x c) eqn:E.
  - injection H as <- <-. apply Ascii.eqb_eq in E. subst. reflexivity.
  - destruct (split_first c xs) as [[a' b']|] eqn:E2; [|discriminate].
    injection H as <- <-. rewrite (IH a' b' eq_refl). reflexivity.
Qed.

Lemma split_last_spec c l a b : split_last c l = Some (a, b) -> l = a ++ c :: b.
Proof.
  unfold split_last. destruct (split_first c (rev l)) as [[a' b']|] eqn:E;
    [|discriminate].
  intros H. injection H as <- <-. apply split_first_spec in E.
  rewrite <- (rev_involutive l), E, rev_app_distr. cbn. rewrite <- app_assoc. reflexivity.
Qed.

(** [root + ext == p] for [root, ext = os.path.splitext(p)]. *)
Lemma splitext_app (p : string) : (splitext p).1 +:+ (splitext p).2 = p.
Proof.
  unfold splitext.
  destruct (split_last "/"%char (list_ascii_of_string p)) as [[before after]|] eqn:E1;
    cbn [fst snd].
  - destruct (split_last "."%char after) as [[root ext]|] eqn:E2;
      [|apply string_app_nil].
    destruct (existsb _ root); cbn [fst snd]; [|apply string_app_nil].
    rewrite <- string_of_list_ascii_app.
    transitivity (string_of_list_ascii (list_ascii_of_string p));
      [|apply string_of_list_ascii_of_string].
    f_equal. apply split_last_spec in E1, E2. rewrite E1, E2, <- !app_assoc. reflexivity.
  - destruct (split_last "."%char (list_ascii_of_string p)) as [[root ext]|] eqn:E2;
      [|apply string_app_nil].
    destruct (existsb _ root); cbn [fst snd]; [|apply string_app_nil].
    rewrite <- string_of_list_ascii_app.
    transitivity (string_of_list_ascii (list_ascii_of_string p));
      [|apply string_of_list_ascii_of_string].
    f_equal. apply split_last_spec in E2. rewrite E2. reflexivity.
Qed.

Lemma nodot_app (b e suffix : string) :
  py_startswith_dot (b +:+ e) = false -> py_startswith_dot suffix = false ->
  py_startswith_dot (b +:+ suffix) = false.
Proof.
  destruct b as [|c b]; [intros _ H; exact H|].
  rewrite !string_app_cons. intros H _. exact H.
Qed.

Lemma original_base_nodot (o suffix : string) :
  is_original o = true -> py_startswith_dot suffix = false ->
  py_startswith_dot ((splitext o).1 +:+ suffix) = false.
Proof.
  intros Ho Hs. apply (nodot_app _ (splitext o).2); [|exact Hs].
  rewrite splitext_app. unfold is_original in Ho.
  destruct (py_startswith_dot o); [discriminate|reflexivity].
Qed.

Lemma metadata_not_translated (b : string) :
  py_endswith (b +:+ "_metadata.json") "_translated.txt" = false.
Proof.
  destruct (py_endswith (b +:+ "_metadata.json") "_translated.txt") eqn:E;
    [|reflexivity].
  exfalso.
  assert (H : b +:+ "_metadata.json"
              = drop_suffix (b +:+ "_metadata.json") "_translated.txt" +:+ "_translated.txt")
    by (apply endswith_drop_iff; auto).
  apply (f_equal (fun s => rev (list_ascii_of_string s))) in H.
  rewrite !list_ascii_of_string_app, !rev_app_distr in H. cbn in H. discriminate.
Qed.

Lemma dict_get_cons {V} (k : string) (v : V) rest k' :
  dict_get ((k, v) :: rest) k' = if String.eqb k k' then Some v else dict_get rest k'.
Proof. unfold dict_get. cbn. destruct (String.eqb k k'); reflexivity. Qed.

Lemma dict_get_In {V} (d : list (string * V)) k v : dict_get d k = Some v -> In (k, v) d.
Proof.
  unfold dict_get. destruct (find _ d) as [[k' v']|] eqn:E; [|discriminate].
  intros H. injection H as <-. apply find_some in E as [Hin Hk].
  apply String.eqb_eq in Hk. cbn in Hk. subst. exact Hin.
Qed.

(** One field of [file_map.get(b)]. *)
Definition get_field {A} (G : FileInfo -> option A) (b : string)
    (m : list (string * FileInfo)) : option A :=
  match dict_get m b with Some fi => G fi | None => None end.

Lemma setdefault_get_eq k f m :
  dict_get (setdefault_update k f m) k = Some (f (default empty_info (dict_get m k))).
Proof.
  induction m as [|[k' fi] rest IH]; cbn [setdefault_update].
  - rewrite dict_get_cons, String.eqb_refl. reflexivity.
  - destruct (String.eqb k' k) eqn:E; rewrite !dict_get_cons, E; [reflexivity|exact IH].
Qed.

Lemma setdefault_get_ne k k' f m :
  k <> k' -> dict_get (setdefault_update k f m) k' = dict_get m k'.
Proof.
  intros Hne. induction m as [|[k0 fi] rest IH]; cbn [setdefault_update].
  - rewrite dict_get_cons. apply String.eqb_neq in Hne. rewrite Hne. reflexivity.
  - destruct (String.eqb k0 k) eqn:E; rewrite !dict_get_cons; [|rewrite IH; reflexivity].
    apply String.eqb_eq in E. subst k0. apply String.eqb_neq in Hne. rewrite Hne.
    reflexivity.
Qed.

Lemma get_field_preserve {A} (G : FileInfo -> option A) f k b m :
  G empty_info = None -> (forall fi, G (f fi) = G fi) ->
  get_field G b (setdefault_update k f m) = get_field G b m.
Proof.
  intros He Hf. unfold get_field. destruct (String.eqb k b) eqn:E.
  - apply String.eqb_eq in E. subst. rewrite setdefault_get_eq, Hf.
    destruct (dict_get m b); [reflexivity|exact He].
  - apply String.eqb_neq in E. rewrite setdefault_get_ne by exact E. reflexivity.
Qed.

Lemma get_field_set {A} (G : FileInfo -> option A) f k b m v :
  (forall fi, G (f fi) = Some v) ->
  get_field G b (setdefault_update k f m)
  = if String.eqb k b then Some v else get_field G b m.
Proof.
  intros Hf. unfold get_field. destruct (String.eqb k b) eqn:E.
  - apply String.eqb_eq in E. subst. rewrite setdefault_get_eq, Hf. reflexivity.
  - apply String.eqb_neq in E. rewrite setdefault_get_ne by exact E. reflexivity.
Qed.

Section Steps.
Variable read_json : string -> Result PyDict.

Lemma filename_step b m x :
  get_field fi_filename b (map_step read_json m x)
  = if is_original x && String.eqb (splitext x).1 b then Some x
    else get_field fi_filename b m.
Proof.
  unfold map_step, is_original.
  destruct (py_startswith_dot x); [reflexivity|]. cbn [negb andb].
  destruct (py_endswith x "_translated.txt"); cbn [negb andb];
    [apply get_field_preserve; reflexivity|].
  destruct (py_endswith x "_metadata.json"); cbn [negb andb].
  - destruct (read_json _); [apply get_field_preserve; reflexivity|reflexivity].
  - apply get_field_set. reflexivity.
Qed.

Lemma translated_step b m x :
  get_field fi_translated b (map_step read_json m x)
  = if negb (py_startswith_dot x) && py_endswith x "_translated.txt" &&
       String.eqb (drop_suffix x "_translated.txt") b
    then Some x else get_field fi_translated b m.
Proof.
  unfold map_step.
  destruct (py_startswith_dot x); [reflexivity|]. cbn [negb andb].
  destruct (py_endswith x "_translated.txt"); cbn [negb andb];
    [apply get_field_set; reflexivity|].
  destruct (py_endswith x "_metadata.json").
  - destruct (read_json _); [apply get_field_preserve; reflexivity|reflexivity].
  - apply get_field_preserve; reflexivity.
Qed.

Lemma metadata_step b m x :
  get_field fi_metadata b (map_step read_json m x)
  = if negb (py_startswith_dot x) && negb (py_endswith x "_translated.txt") &&
       py_endswith x "_metadata.json" && String.eqb (drop_suffix x "_metadata.json") b
    then match read_json (os_path_join UPLOADS_DIR x) with
         | Ok d => Some d
         | Exc _ => get_field fi_metadata b m
         end
    else get_field fi_metadata b m.
Proof.
  unfold map_step.
  destruct (py_startswith_dot x); [reflexivity|]. cbn [negb andb].
  destruct (py_endswith x "_translated.txt"); cbn [negb andb];
    [apply get_field_preserve; reflexivity|].
  destruct (py_endswith x "_metadata.json"); cbn [andb].
  - destruct (String.eqb (drop_suffix x "_metadata.json") b) eqn:E;
      destruct (read_json _) as [d|e]; try reflexivity.
    + rewrite (get_field_set _ _ _ _ _ d) by reflexivity. rewrite E. reflexivity.
    + rewrite (get_field_set _ _ _ _ _ d) by reflexivity. rewrite E. reflexivity.
  - apply get_field_preserve; reflexivity.
Qed.

Lemma get_field_fold {A} (G : FileInfo -> option A) (h : string -> option A -> option A) b :
  (forall m x, get_field G b (map_step read_json m x) = h x (get_field G b m)) ->
  forall names m,
    get_field G b (fold_left (map_step read_json) names m)
    = fold_left (fun a x => h x a) names (get_field G b m).
Proof.
  intros Hstep names. induction names as [|x xs IH]; intros m; cbn; [reflexivity|].
  rewrite IH, Hstep. reflexivity.
Qed.

End Steps.

(** A last-writer-wins field whose writes all carry the same value. *)
Lemma fold_idem {A} (h : string -> option A -> option A) (n : string)
    (k : option A -> option A) (names : list string) (a0 : option A) :
  (forall a, k (k a) = k a) ->
  (forall x a, In x names -> h x a = if String.eqb x n then k a else a) ->
  fold_left (fun a x => h x a) names a0
  = if existsb (String.eqb n) names then k a0 else a0.
Proof.
  intros Hk. revert a0. induction names as [|x xs IH]; intros a0 Hh; cbn; [reflexivity|].
  rewrite Hh by (left; reflexivity).
  rewrite IH by (intros; apply Hh; right; assumption).
  rewrite (String.eqb_sym n x).
  destruct (String.eqb x n); cbn; [|reflexivity].
  destruct (existsb (String.eqb n) xs); [apply Hk|reflexivity].
Qed.

(** What [file_map] holds about original files, for a listing [names]. *)
Definition originals_ok (names : list string) (m : list (string * FileInfo)) : Prop :=
  forall k fi f, In (k, fi) m -> fi_filename fi = Some f ->
    In f names /\ is_original f = true /\ (splitext f).1 = k.

Lemma setdefault_in k f m k' fi' :
  In (k', fi') (setdefault_update k f m) ->
  In (k', fi') m \/
  (k' = k /\ (fi' = f empty_info \/ exists fi0, In (k, fi0) m /\ fi' = f fi0)).
Proof.
  induction m as [|[k0 fi0] rest IH]; cbn [setdefault_update].
  - intros [H|[]]. injection H as <- <-. right. auto.
  - destruct (String.eqb k0 k) eqn:E.
    + apply String.eqb_eq in E. subst k0. intros [H|H].
      * injection H as <- <-. right. split; [reflexivity|].
        right. exists fi0. split; [left; reflexivity|reflexivity].
      * left. right. exact H.
    + intros [H|H]; [left; left; exact H|].
      destruct (IH H) as [H'|[Hk [He|(fi1 & Hin & Hf)]]].
      * left. right. exact H'.
      * right. auto.
      * right. split; [exact Hk|]. right. exists fi1. split; [right; exact Hin|exact Hf].
Qed.

Lemma originals_ok_preserve names k f m :
  originals_ok names m -> (forall fi, fi_filename (f fi) = fi_filename fi) ->
  originals_ok names (setdefault_update k f m).
Proof.
  intros Hm Hf k' fi' x Hin Hx.
  destruct (setdefault_in _ _ _ _ _ Hin) as [H|[-> [He|(fi0 & Hin0 & He)]]].
  - exact (Hm _ _ _ H Hx).
  - subst fi'. rewrite Hf in Hx. discriminate.
  - subst fi'. rewrite Hf in Hx. exact (Hm _ _ _ Hin0 Hx).
Qed.

Lemma originals_ok_step read_json names m x :
  originals_ok names m -> In x names -> originals_ok names (map_step read_json m x).
Proof.
  intros Hm Hx. unfold map_step.
  destruct (py_startswith_dot x) eqn:Ed; [exact Hm|].
  destruct (py_endswith x "_translated.txt") eqn:Et;
    [apply originals_ok_preserve; [exact Hm|reflexivity]|].
  destruct (py_endswith x "_metadata.json") eqn:Em.
  - destruct (read_json _); [|exact Hm].
    apply originals_ok_preserve; [exact Hm|reflexivity].
  - intros k' fi' f Hin Hf.
    destruct (setdefault_in _ _ _ _ _ Hin) as [H|[-> [He|(fi0 & Hin0 & He)]]].
    + exact (Hm _ _ _ H Hf).
    + subst fi'. cbn in Hf. injection Hf as <-.
      unfold is_original. rewrite Ed, Et, Em. auto.
    + subst fi'. cbn in Hf. injection Hf as <-.
      unfold is_original. rewrite Ed, Et, Em. auto.
Qed.

Lemma originals_ok_build read_json names :
  originals_ok names (build_file_map read_json names).
Proof.
  unfold build_file_map.
  assert (H : forall l m, originals_ok names m -> (forall x, In x l -> In x names) ->
                originals_ok names (fold_left (map_step read_json) l m)).
  { induction l as [|x xs IH]; intros m Hm Hl; cbn; [exact Hm|].
    apply IH; [|intros; apply Hl; right; assumption].
    apply originals_ok_step; [exact Hm|apply Hl; left; reflexivity]. }
  apply H; [intros k fi f []|auto].
Qed.

Lemma keys_setdefault k f m :
  map fst (setdefault_update k f m)
  = if existsb (String.eqb k) (map fst m) then map fst m else map fst m ++ [k].
Proof.
  induction m as [|[k0 fi0] rest IH]; cbn [setdefault_update]; [reflexivity|].
  cbn [map fst existsb]. rewrite (String.eqb_sym k k0).
  destruct (String.eqb k0 k) eqn:E; cbn [orb map fst]; [reflexivity|].
  rewrite IH. destruct (existsb (String.eqb k) (map fst rest)); reflexivity.
Qed.

Lemma keys_nodup_setdefault k f m :
  NoDup (map fst m) -> NoDup (map fst (setdefault_update k f m)).
Proof.
  intros Hm. rewrite keys_setdefault.
  destruct (existsb (String.eqb k) (map fst m)) eqn:E; [exact Hm|].
  apply NoDup_app. split; [exact Hm|]. split; [|apply NoDup_singleton].
  intros x Hx Hk. apply list_elem_of_singleton in Hk. subst x.
  apply list_elem_of_In in Hx.
  assert (existsb (String.eqb k) (map fst m) = true)
    by (apply existsb_exists; exists k; split; [exact Hx|apply String.eqb_refl]).
  congruence.
Qed.

Lemma keys_nodup_build read_json names : NoDup (map fst (build_file_map read_json names)).
Proof.
  unfold build_file_map.
  assert (H : forall l m, NoDup (map fst m) ->
                NoDup (map fst (fold_left (map_step read_json) l m))).
  { induction l as [|x xs IH]; intros m Hm; cbn; [exact Hm|].
    apply IH. unfold map_step.
    destruct (py_startswith_dot x); [exact Hm|].
    destruct (py_endswith x "_translated.txt"); [apply keys_nodup_setdefault, Hm|].
    destruct (py_endswith x "_metadata.json");
      [destruct (read_json _); [apply keys_nodup_setdefault, Hm|exact Hm]|].
    apply keys_nodup_setdefault, Hm. }
  apply H. constructor.
Qed.

Lemma in_to_entries e m :
  In e (to_entries m) ->
  exists k fi, In (k, fi) m /\ fi_filename fi = Some (filename e).
Proof.
  unfold to_entries. intros H. apply in_flat_map in H as ([k fi] & Hin & He).
  cbn in He. destruct (fi_filename fi) as [f|] eqn:Ef; [|destruct He].
  destruct He as [<-|[]]. exists k, fi. auto.
Qed.

Lemma to_entries_bases names m :
  originals_ok names m -> NoDup (map fst m) ->
  NoDup (map (fun e => (splitext (filename e)).1) (to_entries m)).
Proof.
  induction m as [|[k fi] rest IH]; intros Hok Hnd; [constructor|].
  cbn [map fst] in Hnd. apply NoDup_cons in Hnd as [Hk Hnd].
  assert (Hrest : originals_ok names rest)
    by (intros k' fi' f Hin; apply Hok; right; exact Hin).
  unfold to_entries. cbn [flat_map snd]. fold (to_entries rest).
  destruct (fi_filename fi) as [f|] eqn:Ef; cbn [app map]; [|apply IH; assumption].
  apply NoDup_cons. split; [|apply IH; assumption].
  destruct (Hok k fi f (or_introl eq_refl) Ef) as (_ & _ & Hb). cbn. rewrite Hb.
  intros Hin. apply list_elem_of_In, in_map_iff in Hin as (e & He & Hin).
  apply in_to_entries in Hin as (k' & fi' & Hin' & Hf').
  destruct (Hrest _ _ _ Hin' Hf') as (_ & _ & Hb').
  apply Hk. apply list_elem_of_In, in_map_iff. exists (k', fi'). split; [|exact Hin'].
  cbn. rewrite <- Hb', He. reflexivity.
Qed.

(** Every entry of the listing is an original file: a listed name that
    does not start with ['.'] and ends neither with [_translated.txt] nor
    with [_metadata.json]. An uploaded file whose own name ends with
    [_translated.txt] is therefore never listed as an original. *)
Theorem get_uploaded_files_lists_originals read_json (names : list string) :
  Forall (fun e => In (filename e) names /\ is_original (filename e) = true)
    (files (get_uploaded_files read_json (Ok names))).
Proof.
  apply Forall_forall. intros e He. apply list_elem_of_In in He. cbn in He.
  apply in_to_entries in He as (k & fi & Hin & Hf).
  destruct (originals_ok_build read_json names k fi _ Hin Hf) as (H1 & H2 & _).
  auto.
Qed.

(** One entry per base name: no two entries share [splitext(filename)[0]].
    Two originals with the same base (say [paper.pdf] and [paper.txt])
    collapse into one entry, the one listed last. *)
Theorem get_uploaded_files_one_entry_per_base read_json (names : list string) :
  NoDup (map (fun e => (splitext (filename e)).1)
             (files (get_uploaded_files read_json (Ok names)))).
Proof.
  cbn. apply (to_entries_bases names).
  - apply originals_ok_build.
  - apply keys_nodup_build.
Qed.

(** An original [o] that is the only original with its base [b] gets an
    entry; its [translated_filename] is [b + "_translated.txt"] exactly
    when that name is listed, and its [metadata] is the parsed
    [b + "_metadata.json"] when that name is listed and parses (no
    metadata otherwise). *)
Theorem get_uploaded_files_pairs_artifacts read_json (names : list string) (o : string) :
  In o names ->
  is_original o = true ->
  (forall o', In o' names -> is_original o' = true ->
              (splitext o').1 = (splitext o).1 -> o' = o) ->
  In (mkEntry o
        (if existsb (String.eqb ((splitext o).1 +:+ "_translated.txt")) names
         then Some ((splitext o).1 +:+ "_translated.txt") else None)
        (if existsb (String.eqb ((splitext o).1 +:+ "_metadata.json")) names
         then match read_json (os_path_join UPLOADS_DIR
                                 ((splitext o).1 +:+ "_metadata.json")) with
              | Ok d => Some d
              | Exc _ => None
              end
         else None))
     (files (get_uploaded_files read_json (Ok names))).
Proof.
  intros Ho Horig Huniq. cbn [get_uploaded_files files].
  set (b := (splitext o).1) in *.
  set (m := build_file_map read_json names).
  (* the original *)
  assert (Hfn : get_field fi_filename b m = Some o).
  { unfold m, build_file_map.
    rewrite (get_field_fold read_json fi_filename
               (fun x a => if is_original x && String.eqb (splitext x).1 b
                           then Some x else a) b (filename_step read_json b) names []).
    rewrite (fold_idem _ o (fun _ => Some o)); [| reflexivity |].
    - assert (Hex : existsb (String.eqb o) names = true)
        by (apply existsb_exists; exists o; split; [exact Ho|apply String.eqb_refl]).
      rewrite Hex. reflexivity.
    - intros x a Hx.
      destruct (is_original x && String.eqb (splitext x).1 b) eqn:Ec.
      + apply andb_true_iff in Ec as [Eo Eb]. apply String.eqb_eq in Eb.
        rewrite (Huniq x Hx Eo Eb), String.eqb_refl. reflexivity.
      + destruct (String.eqb x o) eqn:Exo; [|reflexivity].
        apply String.eqb_eq in Exo. subst x.
        rewrite Horig, String.eqb_refl in Ec. discriminate. }
  unfold get_field in Hfn.
  destruct (dict_get m b) as [fi|] eqn:Efi; [|discriminate].
  apply dict_get_In in Efi as Hin.
  (* the translation *)
  assert (Htr : fi_translated fi
                = if existsb (String.eqb (b +:+ "_translated.txt")) names
                  then Some (b +:+ "_translated.txt") else None).
  { change (fi_translated fi) with
      (match Some fi with Some fi => fi_translated fi | None => None end).
    rewrite <- Efi. fold (get_field fi_translated b m). unfold m, build_file_map.
    rewrite (get_field_fold read_json fi_translated
               (fun x a => if negb (py_startswith_dot x) &&
                              py_endswith x "_translated.txt" &&
                              String.eqb (drop_suffix x "_translated.txt") b
                           then Some x else a) b (translated_step read_json b)).
    apply (fold_idem _ (b +:+ "_translated.txt") (fun _ => Some (b +:+ "_translated.txt")));
      [reflexivity|].
    intros x a _.
    destruct (negb (py_startswith_dot x) && py_endswith x "_translated.txt" &&
              String.eqb (drop_suffix x "_translated.txt") b) eqn:Ec.
    - apply andb_true_iff in Ec as [Ec Eb]. apply andb_true_iff in Ec as [_ Ee].
      apply String.eqb_eq in Eb.
      assert (Hx : x = b +:+ "_translated.txt") by (apply endswith_drop_iff; auto).
      rewrite Hx, String.eqb_refl. reflexivity.
    - destruct (String.eqb x (b +:+ "_translated.txt")) eqn:Ex; [|reflexivity].
      apply String.eqb_eq in Ex. subst x.
      destruct (proj2 (endswith_drop_iff (b +:+ "_translated.txt") "_translated.txt" b)
                  eq_refl) as [E1 E2].
      pose proof (original_base_nodot o "_translated.txt" Horig eq_refl) as Hd.
      fold b in Hd. rewrite Hd in Ec.
      rewrite E1, E2, String.eqb_refl in Ec. discriminate. }
  (* the metadata *)
  assert (Hmd : fi_metadata fi
                = if existsb (String.eqb (b +:+ "_metadata.json")) names
                  then match read_json (os_path_join UPLOADS_DIR (b +:+ "_metadata.json")) with
                       | Ok d => Some d
                       | Exc _ => None
                       end
                  else None).
  { change (fi_metadata fi) with
      (match Some fi with Some fi => fi_metadata fi | None => None end).
    rewrite <- Efi. fold (get_field fi_metadata b m). unfold m, build_file_map.
    rewrite (get_field_fold read_json fi_metadata
               (fun x a => if negb (py_startswith_dot x) &&
                              negb (py_endswith x "_translated.txt") &&
                              py_endswith x "_metadata.json" &&
                              String.eqb (drop_suffix x "_metadata.json") b
                           then match read_json (os_path_join UPLOADS_DIR x) with
                                | Ok d => Some d
                                | Exc _ => a
                                end
                           else a) b (metadata_step read_json b)).
    apply (fold_idem _ (b +:+ "_metadata.json")
             (fun a => match read_json (os_path_join UPLOADS_DIR (b +:+ "_metadata.json")) with
                       | Ok d => Some d
                       | Exc _ => a
                       end));
      [intros a; destruct (read_json _); reflexivity|].
    intros x a _.
    destruct (negb (py_startswith_dot x) && negb (py_endswith x "_translated.txt") &&
              py_endswith x "_metadata.json" &&
              String.eqb (drop_suffix x "_metadata.json") b) eqn:Ec.
    - apply andb_true_iff in Ec as [Ec Eb]. apply andb_true_iff in Ec as [_ Ee].
      apply String.eqb_eq in Eb.
      assert (Hx : x = b +:+ "_metadata.json") by (apply endswith_drop_iff; auto).
      rewrite Hx, String.eqb_refl. reflexivity.
    - destruct (String.eqb x (b +:+ "_metadata.json")) eqn:Ex; [|reflexivity].
      apply String.eqb_eq in Ex. subst x.
      destruct (proj2 (endswith_drop_iff (b +:+ "_metadata.json") "_metadata.json" b)
                  eq_refl) as [E1 E2].
      pose proof (original_base_nodot o "_metadata.json" Horig eq_refl) as Hd.
      fold b in Hd. rewrite Hd in Ec.
      rewrite metadata_not_translated, E1, E2, String.eqb_refl in Ec. discriminate. }
  rewrite <- Htr, <- Hmd. unfold to_entries. apply in_flat_map.
  exists (b, fi). split; [exact Hin|]. cbn. rewrite Hfn. left. reflexivity.
Qed.

Lemma get_uploaded_files_pairs_artifacts_witness :
  In (mkEntry "paper.pdf"
        (if existsb (String.eqb ((splitext "paper.pdf").1 +:+ "_translated.txt"))
              ["paper.pdf"; "paper_translated.txt"; "paper_metadata.json"; "notes.txt"]
         then Some ((splitext "paper.pdf").1 +:+ "_translated.txt") else None)
        (if existsb (String.eqb ((splitext "paper.pdf").1 +:+ "_metadata.json"))
              ["paper.pdf"; "paper_translated.txt"; "paper_metadata.json"; "notes.txt"]
         then match (fun _ : string => Ok (∅ : PyDict))
                      (os_path_join UPLOADS_DIR
                         ((splitext "paper.pdf").1 +:+ "_metadata.json")) with
              | Ok d => Some d
              | Exc _ => None
              end
         else None))
     (files (get_uploaded_files (fun _ => Ok ∅)
               (Ok ["paper.pdf"; "paper_translated.txt"; "paper_metadata.json";
                    "notes.txt"]))).
Proof.
  apply get_uploaded_files_pairs_artifacts.
  - left. reflexivity.
  - reflexivity.
  - intros o' Hin Ho Hb. cbn in Hin.
    destruct Hin as [<-|[<-|[<-|[<-|[]]]]]; try reflexivity; discriminate.
Defined.

End ListingProofs.

(** ** Further properties of the status stream *)
Module HubExtraProofs.
Import StatusHub.

Lemma step_keeps_disconnected {Event} (h : Hub Event) a sub :
  is_connected h sub = false -> a <> Connect sub ->
  is_connected (step h a) sub = false /\ received_by (step h a) sub = received_by h sub.
Proof.
  intros Hc Ha. unfold is_connected in *.
  destruct a as [sub'|sub'|ev|sub']; cbn; unfold is_connected.
  - split; [|reflexivity]. cbn. rewrite Hc, orb_false_r.
    apply Nat.eqb_neq. intros ->. apply Ha. reflexivity.
  - split; [|reflexivity].
    apply not_true_iff_false. intros H. apply existsb_exists in H as (x & Hx & Hxs).
    apply list_elem_of_In, list_elem_of_filter in Hx as [_ Hx].
    apply list_elem_of_In in Hx.
    assert (existsb (Nat.eqb sub) (connected h) = true)
      by (apply existsb_exists; eauto).
    congruence.
  - split; [exact Hc|reflexivity].
  - destruct (existsb (Nat.eqb sub') (connected h)) eqn:E; [|split; [exact Hc|reflexivity]].
    assert (Hne : Nat.eqb sub' sub = false).
    { apply Nat.eqb_neq. intros ->. congruence. }
    destruct (queue h) as [|ev rest]; cbn; (split; [exact Hc|]);
      unfold received_by; cbn; rewrite flat_map_app; cbn; rewrite ?Hne, app_nil_r;
      reflexivity.
Qed.

(** A client that is not connected, and does not connect again, receives
    nothing more, whatever is published or polled by others. *)
Theorem disconnected_client_receives_nothing {Event} (h : Hub Event)
    (acts : list (Action Event)) (sub : nat) :
  is_connected h sub = false ->
  ~ In (Connect sub) acts ->
  received_by (run h acts) sub = received_by h sub.
Proof.
  unfold run. revert h. induction acts as [|a acts IH]; intros h Hc Hin; cbn; [reflexivity|].
  destruct (step_keeps_disconnected h a sub Hc) as [Hc' Hr];
    [intros ->; apply Hin; left; reflexivity|].
  rewrite IH; [exact Hr|exact Hc'|intros H; apply Hin; right; exact H].
Qed.

Lemma disconnected_client_receives_nothing_witness :
  is_connected (run (@empty_hub string) [Connect 1; Connect 2; Disconnect 2]) 2 = false /\
  received_by (run (run (@empty_hub string) [Connect 1; Connect 2; Disconnect 2])
                 [Put "ev"; Poll 2; Poll 1]) 2
  = received_by (run (@empty_hub string) [Connect 1; Connect 2; Disconnect 2]) 2.
Proof.
  split; [reflexivity|].
  apply disconnected_client_receives_nothing; [reflexivity|].
  cbn. intros [H|[H|[H|[]]]]; discriminate.
Defined.

End HubExtraProofs.

(** ** Further properties of the metadata record *)
Module MetadataExtraProofs.
Import Backend MetadataExtraction MetadataProofs.

(** [translate_metadata] never translates: every call of [translate_text]
    in it raises a [TypeError] (unexpected keyword [target_lang]) that is
    caught, so falsy values are dropped and every other value is kept
    as it is, except that the items of a [keywords] list go through
    [str()]. *)
Theorem translate_metadata_keeps_values (m : PyDict) :
  translate_metadata m
  = map_imap (fun k v =>
      if py_truthy v then
        Some (if String.eqb k "keywords" then
                match v with
                | PList kws => PList (map (fun kw => PStr (py_str kw)) kws)
                | _ => v
                end
              else v)
      else None) m.
Proof.
  unfold translate_metadata. apply map_eq. intros k.
  rewrite !map_lookup_imap. destruct (m !! k) as [v|]; cbn; [|reflexivity].
  destruct (py_truthy v); [|reflexivity]. f_equal.
  unfold translate_field, translate_text_kw.
  destruct (String.eqb k "keywords") eqn:Ek.
  - apply String.eqb_eq in Ek. subst k. reflexivity.
  - destruct (existsb (String.eqb k) ["title"; "subject"; "abstract"]); [reflexivity|].
    destruct (String.eqb k "author"); [destruct v; reflexivity|].
    reflexivity.
Qed.

Lemma translate_metadata_lookup (m : PyDict) k :
  translate_metadata m !! k
  = match m !! k with
    | Some v => if py_truthy v then Some (translate_field k v) else None
    | None => None
    end.
Proof. unfold translate_metadata. rewrite map_lookup_imap. destruct (m !! k); reflexivity. Qed.

Lemma lookup_if_insert (c : bool) k k' (v : PyVal) (m : PyDict) :
  k <> k' -> (if c then <[k := v]> m else m) !! k' = m !! k'.
Proof. intros Hne. destruct c; [apply lookup_insert_ne; exact Hne|reflexivity]. Qed.

Lemma truthy_if_insert (c : bool) k k' (v : PyVal) (m : PyDict) :
  k <> k' -> py_get_truthy (if c then <[k := v]> m else m) k' = py_get_truthy m k'.
Proof. intros Hne. unfold py_get_truthy. rewrite lookup_if_insert by exact Hne. reflexivity. Qed.

(** For a PDF whose reader metadata has a non-empty [author], the record
    keeps that [author] but its [authors] list is the default
    ["No Authors"]: step 2 only adds [authors] when [author] is missing,
    and step 7 then fills the absent [authors] with the default. *)
Theorem pdf_author_not_in_authors (file_path file_ext text_content : string)
    (i : PdfInfo) (generate_abstract : Result string)
    (generate_keywords : list string) (yake_keywords : Result (list string)) (a : string) :
  String.eqb (py_lower file_ext) ".pdf" = true ->
  info_author i = Some a ->
  a <> "" ->
  let md := process_file_metadata file_path file_ext text_content (Some i)
              generate_abstract generate_keywords yake_keywords in
  md !! "author" = Some (PStr a) /\ md !! "authors" = Some (PList [PStr "No Authors"]).
Proof.
  intros Hpdf Hi Ha md. subst md.
  unfold process_file_metadata, finalize, derive_fields. rewrite Hpdf.
  set (m := extract_metadata_from_pdf (Some i)).
  assert (Hm_author : m !! "author" = Some (PStr a)).
  { subst m. cbn [extract_metadata_from_pdf]. rewrite Hi. simplify_map_eq. reflexivity. }
  assert (Hm_authors : m !! "authors" = None).
  { subst m. cbn [extract_metadata_from_pdf]. simplify_map_eq. reflexivity. }
  assert (Hta : py_truthy (PStr a) = true).
  { cbn. destruct (String.eqb a "") eqn:E; [apply String.eqb_eq in E; congruence|reflexivity]. }
  assert (Hmt : py_dict_truthy m = true).
  { unfold py_dict_truthy. rewrite bool_decide_eq_false_2; [reflexivity|].
    intros He. rewrite He in Hm_author. discriminate. }
  rewrite Hmt. cbv zeta.
  set (fm1 := translate_metadata m).
  assert (H1a : fm1 !! "author" = Some (PStr a)).
  { subst fm1. rewrite translate_metadata_lookup, Hm_author, Hta. reflexivity. }
  assert (H1s : fm1 !! "authors" = None).
  { subst fm1. rewrite translate_metadata_lookup, Hm_authors. reflexivity. }
  assert (Hg : py_get_truthy fm1 "author" = true).
  { unfold py_get_truthy. rewrite H1a. exact Hta. }
  rewrite Hg. cbn [negb andb].
  set (fm3 := if negb (py_get_truthy fm1 "abstract") then _ else fm1).
  assert (H3a : fm3 !! "author" = Some (PStr a))
    by (subst fm3; rewrite lookup_if_insert by discriminate; exact H1a).
  assert (H3s : fm3 !! "authors" = None)
    by (subst fm3; rewrite lookup_if_insert by discriminate; exact H1s).
  set (fm4 := if negb (py_get_truthy fm3 "keywords") then _ else fm3).
  assert (H4a : fm4 !! "author" = Some (PStr a)).
  { subst fm4. destruct (negb (py_get_truthy fm3 "keywords")); [|exact H3a].
    destruct (match generate_keywords with [] => _ | _ => _ end) as [[|? ?]|?];
      rewrite lookup_insert_ne by discriminate; exact H3a. }
  assert (H4s : fm4 !! "authors" = None).
  { subst fm4. destruct (negb (py_get_truthy fm3 "keywords")); [|exact H3s].
    destruct (match generate_keywords with [] => _ | _ => _ end) as [[|? ?]|?];
      rewrite lookup_insert_ne by discriminate; exact H3s. }
  set (c0 := map_imap clean_value (translate_metadata fm4)).
  assert (Hca : c0 !! "author" = Some (PStr a)).
  { subst c0. rewrite map_lookup_imap, translate_metadata_lookup, H4a, Hta. cbn.
    destruct a; [congruence|reflexivity]. }
  assert (Hcs : c0 !! "authors" = None).
  { subst c0. rewrite map_lookup_imap, translate_metadata_lookup, H4s. reflexivity. }
  split.
  - rewrite !ensure_list_other by discriminate.
    rewrite lookup_if_insert by discriminate. exact Hca.
  - rewrite ensure_list_other by discriminate. apply ensure_list_default.
    rewrite truthy_if_insert by discriminate. unfold py_get_truthy. rewrite Hcs.
    reflexivity.
Qed.

Lemma pdf_author_not_in_authors_witness :
  let md := process_file_metadata "uploads/paper.pdf" ".pdf" "text" 
              (Some (mkPdfInfo (Some "A Study") (Some "Ada Lovelace") None None None
                               None None))
              (Ok "An abstract.") ["engines"] (Ok []) in
  md !! "author" = Some (PStr "Ada Lovelace") /\
  md !! "authors" = Some (PList [PStr "No Authors"]).
Proof.
  apply pdf_author_not_in_authors; [reflexivity|reflexivity|discriminate].
Defined.

(** For a file that is not a PDF, the record's [title] is the base file
    name, [authors] is ["No Authors"], [abstract] is the generated one
    (dropped when it is empty; the fallback text when generation raised),
    and [keywords] is the list returned by [generate_keywords] when that
    is non-empty. *)
Theorem non_pdf_record_fields (file_path file_ext text_content : string)
    (pdf_info : option PdfInfo) (generate_abstract : Result string)
    (generate_keywords : list string) (yake_keywords : Result (list string)) :
  String.eqb (py_lower file_ext) ".pdf" = false ->
  let md := process_file_metadata file_path file_ext text_content pdf_info
              generate_abstract generate_keywords yake_keywords in
  md !! "title" = Some (PStr (base_of file_path)) /\
  md !! "authors" = Some (PList [PStr "No Authors"]) /\
  md !! "abstract" = match generate_abstract with
                     | Ok "" => None
                     | Ok ab => Some (PStr ab)
                     | Exc _ => Some (PStr "Abstract could not be generated.")
                     end /\
  (generate_keywords <> [] ->
   md !! "keywords" = Some (PList (map PStr generate_keywords))).
Proof.
  intros Hpdf md. subst md.
  unfold process_file_metadata, finalize, derive_fields. rewrite Hpdf. cbv zeta.
  assert (E2 : py_get_truthy ∅ "author" = false /\ py_get_truthy ∅ "authors" = false)
    by (split; reflexivity).
  destruct E2 as [-> ->]. cbn [negb andb].
  set (fm2 := <["authors" := PList [PStr "No Authors"]]> (∅ : PyDict)).
  assert (Hab : py_get_truthy fm2 "abstract" = false) by reflexivity.
  rewrite Hab. cbn [negb].
  set (abs := match generate_abstract with
              | Ok a => PStr a
              | Exc _ => PStr "Abstract could not be generated."
              end).
  set (fm3 := <["abstract" := abs]> fm2).
  assert (Hkw : py_get_truthy fm3 "keywords" = false) by reflexivity.
  rewrite Hkw. cbn [negb].
  match goal with
  | |- context [map_imap clean_value (translate_metadata ?F)] => set (fm4 := F)
  end.
  assert (H4 : forall k, k <> "keywords" -> fm4 !! k = fm3 !! k).
  { intros k Hk. subst fm4.
    destruct (match generate_keywords with [] => _ | _ => _ end) as [[|? ?]|?];
      apply lookup_insert_ne; congruence. }
  set (c0 := map_imap clean_value (translate_metadata fm4)).
  assert (Hc_title : c0 !! "title" = None).
  { subst c0. rewrite map_lookup_imap, translate_metadata_lookup, H4 by discriminate.
    reflexivity. }
  assert (Hc0 : py_get_truthy c0 "title" = false)
    by (unfold py_get_truthy; rewrite Hc_title; reflexivity).
  rewrite Hc0. cbn [negb].
  set (c1 := <["title" := PStr (base_of file_path)]> c0).
  assert (Hc_authors : c1 !! "authors" = Some (PList [PStr "No Authors"])).
  { subst c1 c0. rewrite lookup_insert_ne by discriminate.
    rewrite map_lookup_imap, translate_metadata_lookup, H4 by discriminate.
    reflexivity. }
  split; [|split; [|split]].
  - rewrite !ensure_list_other by discriminate. apply lookup_insert_eq.
  - rewrite ensure_list_other by discriminate.
    unfold ensure_list. rewrite Hc_authors. cbn. exact Hc_authors.
  - rewrite !ensure_list_other by discriminate. subst c1 c0.
    rewrite lookup_insert_ne by discriminate.
    rewrite map_lookup_imap, translate_metadata_lookup, H4 by discriminate.
    subst fm3. rewrite lookup_insert_eq. subst abs.
    destruct generate_abstract as [ab|e]; [|reflexivity].
    destruct ab as [|c ab]; reflexivity.
  - intros Hne. assert (Hkw4 : fm4 !! "keywords" = Some (PList (map PStr generate_keywords))).
    { subst fm4. destruct generate_keywords as [|g gs]; [congruence|].
      apply lookup_insert_eq. }
    assert (Hc : c1 !! "keywords" = Some (PList (map PStr generate_keywords))).
    { subst c1 c0. rewrite lookup_insert_ne by discriminate.
      rewrite map_lookup_imap, translate_metadata_lookup, Hkw4.
      destruct generate_keywords as [|g gs]; [congruence|]. cbn.
      rewrite map_map. cbn.
      destruct gs; reflexivity. }
    assert (Hc2 : ensure_list "authors" (PList [PStr "No Authors"]) c1 !! "keywords"
                  = Some (PList (map PStr generate_keywords)))
      by (rewrite ensure_list_other by discriminate; exact Hc).
    unfold ensure_list at 1. rewrite Hc2.
    destruct generate_keywords as [|g gs]; [congruence|]. cbn [map py_truthy negb].
    exact Hc2.
Qed.

Lemma non_pdf_record_fields_witness :
  let md := process_file_metadata "uploads/notes.txt" ".txt" "text" None
              (Ok "An abstract.") ["engines"; "looms"] (Ok []) in
  md !! "title" = Some (PStr (base_of "uploads/notes.txt")) /\
  md !! "authors" = Some (PList [PStr "No Authors"]) /\
  md !! "abstract" = Some (PStr "An abstract.") /\
  (["engines"; "looms"] <> [] ->
   md !! "keywords" = Some (PList (map PStr ["engines"; "looms"]))).
Proof.
  apply (non_pdf_record_fields "uploads/notes.txt" ".txt" "text" None
           (Ok "An abstract.") ["engines"; "looms"] (Ok [])).
  reflexivity.
Defined.

End MetadataExtraProofs.
